(** * Books API test harness: validators, fixtures, configuration, client

    A shallow embedding of the Python sources under [src/]:
    - [utils/validators.py]   (BookSchema, APIResponseValidator, ResponseAsserter)
    - [utils/test_data_generator.py] (TestDataGenerator)
    - [config/config.py]      (Config)
    - [utils/api_client.py]   (APIClient._make_request)

    Python values are an inductive type, [str] is a list of code points,
    [int] is [Z], [float] is an IEEE value ([spec_float]), a [dict] is an
    insertion-ordered association list.  Exceptions are values of [exn]
    carried by the [result] type; code that touches the random generators,
    the clock or the disk threads an explicit world.  Calls of [logging]
    are kept where a property speaks of them ([_make_request]) and left
    out elsewhere: they change no result. *)

From Stdlib Require Import ZArith NArith List Bool Lia String Ascii.
From Stdlib Require Import Floats.SpecFloat.
Import ListNotations.
Open Scope Z_scope.

(* ================================================================== *)
(** ** Python strings *)

Module PyStr.

(** A Python [str]: a sequence of Unicode code points. *)
Definition pystr := list N.

(** A literal, written with Rocq's string syntax (code points < 256). *)
Definition str (s : string) : pystr :=
  map N_of_ascii (list_ascii_of_string s).

Definition chr_eqb (a b : N) : bool := N.eqb a b.

Fixpoint eqb (a b : pystr) : bool :=
  match a, b with
  | [], [] => true
  | x :: a', y :: b' => chr_eqb x y && eqb a' b'
  | _, _ => false
  end.

(** [c in s] for a one-character [c]. *)
Definition contains_chr (c : N) (s : pystr) : bool := existsb (chr_eqb c) s.

(** [s.startswith(p)] *)
Fixpoint startswith (p s : pystr) : bool :=
  match p, s with
  | [], _ => true
  | x :: p', y :: s' => chr_eqb x y && startswith p' s'
  | _ :: _, [] => false
  end.

(** [str.isspace] on one code point: the code points Python's
    [str.strip()] removes (Unicode White_Space and the separators
    U+001C..U+001F). *)
Definition isspace (c : N) : bool :=
  ((9 <=? c) && (c <=? 13) || (28 <=? c) && (c <=? 32)
   || (c =? 133) || (c =? 160) || (c =? 5760)
   || (8192 <=? c) && (c <=? 8202)
   || (c =? 8232) || (c =? 8233) || (c =? 8239) || (c =? 8287)
   || (c =? 12288))%N.

Fixpoint lstrip (s : pystr) : pystr :=
  match s with
  | c :: s' => if isspace c then lstrip s' else s
  | [] => []
  end.

Definition rstrip (s : pystr) : pystr := rev (lstrip (rev s)).

(** [s.strip()] *)
Definition strip (s : pystr) : pystr := rstrip (lstrip s).

(** Python truthiness of a [str]: non-empty. *)
Definition truthy (s : pystr) : bool :=
  match s with [] => false | _ :: _ => true end.

(** [s.split(c)] for a one-character separator: the list of the pieces
    between the occurrences of [c] (never empty). *)
Fixpoint split (c : N) (s : pystr) : list pystr :=
  match s with
  | [] => [[]]
  | x :: s' =>
      if chr_eqb x c then [] :: split c s'
      else match split c s' with
           | piece :: rest => (x :: piece) :: rest
           | [] => [[x]]
           end
  end.

(** [s.replace(c, new)] for a one-character [c]. *)
Fixpoint replace (c : N) (new : pystr) (s : pystr) : pystr :=
  match s with
  | [] => []
  | x :: s' => if chr_eqb x c then new ++ replace c new s'
               else x :: replace c new s'
  end.

(** The slice [s[i:j]]. *)
Definition slice (i j : nat) (s : pystr) : pystr := firstn (j - i) (skipn i s).

(** [c * n] *)
Definition times (c : N) (n : nat) : pystr := repeat c n.

(** Decimal digits.  [digit c] is the value of an ASCII digit. *)
Definition digit (c : N) : option Z :=
  if ((48 <=? c) && (c <=? 57))%N then Some (Z.of_N c - 48) else None.

(** Value of a string of ASCII digits ([None] when empty or when a
    character is not a digit). *)
Fixpoint digits_value (acc : Z) (s : pystr) : option Z :=
  match s with
  | [] => Some acc
  | c :: s' => match digit c with
               | Some d => digits_value (acc * 10 + d) s'
               | None => None
               end
  end.

Definition parse_digits (s : pystr) : option Z :=
  match s with [] => None | _ => digits_value 0 s end.

Fixpoint digits_rev (w : nat) (n : Z) : pystr :=
  match w with
  | O => []
  | S w' => (48 + Z.to_N (n mod 10))%N :: digits_rev w' (n / 10)
  end.

(** [n] written with exactly [w] decimal digits (zero padded), as the
    [%m], [%d] and [%Y] directives of [strftime] do. *)
Definition zfill (w : nat) (n : Z) : pystr := rev (digits_rev w n).

Fixpoint lstrip_zeros (s : pystr) : pystr :=
  match s with
  | c :: s' => if chr_eqb c 48 then lstrip_zeros s' else s
  | [] => []
  end.

(** [str(n)] for an [int]. *)
Definition of_Z (n : Z) : pystr :=
  let mag := Z.abs n in
  let w := S (Z.to_nat (Z.log2 mag)) in
  let body := match lstrip_zeros (zfill w mag) with [] => [48%N] | d => d end in
  if n <? 0 then 45%N :: body else body.

End PyStr.
Import PyStr.

(* ================================================================== *)
(** ** Python values, exceptions *)

Module Py.

(** The values a decoded JSON body or a fixture payload is made of. *)
#[warnings="-register-all"]
Inductive pyval : Type :=
| PNone
| PBool (b : bool)
| PInt (z : Z)
| PFloat (f : spec_float)
| PStr (s : pystr)
| PList (l : list pyval)
| PDict (d : list (pystr * pyval)).

(** A [dict]: keys in insertion order. *)
Definition pydict := list (pystr * pyval).

(** Exceptions, by class.  [ValidationError] is pydantic's (one entry per
    failing field: location and message); [SchemaViolation] is
    jsonschema's [ValidationError] (the failing keywords). *)
Inductive exn : Type :=
| ValueError (msg : pystr)
| TypeError (msg : pystr)
| AttributeError (msg : pystr)
| AssertionError (msg : pystr)
| ValidationError (errors : list (pystr * pystr))
| SchemaViolation (keywords : list pystr)
| SchemaError (msg : pystr)
| OSError (msg : pystr)
| JSONDecodeError (msg : pystr)
| RequestsTimeout (msg : pystr)
| RequestsConnectionError (msg : pystr)
| RequestException (msg : pystr)
| OtherException (msg : pystr).

(** The outcome of a call: a returned value or a raised exception. *)
Inductive result (A : Type) : Type :=
| Ok (a : A)
| Raise (e : exn).
Arguments Ok {A} a.
Arguments Raise {A} e.

Definition bind {A B} (r : result A) (k : A -> result B) : result B :=
  match r with Ok a => k a | Raise e => Raise e end.

(** [try: body  except <classes> as e: handler(e)]: an exception of a
    class the clause names runs the handler, any other propagates. *)
Definition try_except {A} (body : result A) (handles : exn -> bool)
           (handler : exn -> result A) : result A :=
  match body with
  | Ok a => Ok a
  | Raise e => if handles e then handler e else Raise e
  end.

(** [except Exception]: every class of [exn] derives from [Exception]. *)
Definition is_Exception (e : exn) : bool := true.

(** *** dict operations *)

(** [d.get(k)] / [d[k]] *)
Fixpoint dict_get (k : pystr) (d : pydict) : option pyval :=
  match d with
  | [] => None
  | (k', v) :: d' => if PyStr.eqb k k' then Some v else dict_get k d'
  end.

(** [k in d] *)
Definition dict_has (k : pystr) (d : pydict) : bool :=
  match dict_get k d with Some _ => true | None => false end.

(** [d.pop(k, None)] *)
Fixpoint dict_pop (k : pystr) (d : pydict) : pydict :=
  match d with
  | [] => []
  | (k', v) :: d' => if PyStr.eqb k k' then dict_pop k d' else (k', v) :: dict_pop k d'
  end.

(** [d[k] = v]: an existing key keeps its position. *)
Fixpoint dict_set (k : pystr) (v : pyval) (d : pydict) : pydict :=
  match d with
  | [] => [(k, v)]
  | (k', v') :: d' => if PyStr.eqb k k' then (k, v) :: d' else (k', v') :: dict_set k v d'
  end.

Definition dict_keys (d : pydict) : list pystr := map fst d.

(** *** numbers *)

(** The exact value of a number: a dyadic rational [num / den]
    ([den] a positive power of two), an infinity, or not-a-number. *)
Inductive pynum : Type :=
| NumQ (num den : Z)
| NumInf (negative : bool)
| NumNaN.

Definition signed (negative : bool) (m : Z) : Z := if negative then - m else m.

Definition float_num (f : spec_float) : pynum :=
  match f with
  | S754_zero _ => NumQ 0 1
  | S754_infinity s => NumInf s
  | S754_nan => NumNaN
  | S754_finite s m e =>
      if 0 <=? e then NumQ (signed s (Z.pos m * 2 ^ e)) 1
      else NumQ (signed s (Z.pos m)) (2 ^ (- e))
  end.

(** [bool] is a subclass of [int]: [True == 1]. *)
Definition num_of (v : pyval) : option pynum :=
  match v with
  | PBool b => Some (NumQ (if b then 1 else 0) 1)
  | PInt z => Some (NumQ z 1)
  | PFloat f => Some (float_num f)
  | _ => None
  end.

Definition num_eqb (a b : pynum) : bool :=
  match a, b with
  | NumQ n1 d1, NumQ n2 d2 => n1 * d2 =? n2 * d1
  | NumInf s1, NumInf s2 => Bool.eqb s1 s2
  | _, _ => false
  end.

(** [a < b] *)
Definition num_ltb (a b : pynum) : bool :=
  match a, b with
  | NumQ n1 d1, NumQ n2 d2 => n1 * d2 <? n2 * d1
  | NumQ _ _, NumInf s => negb s
  | NumInf s, NumQ _ _ => s
  | NumInf s1, NumInf s2 => s1 && negb s2
  | _, _ => false
  end.

(** [float.is_integer()], with the integer it is. *)
Definition float_to_Z (f : spec_float) : option Z :=
  match f with
  | S754_zero _ => Some 0
  | S754_finite s m e =>
      if 0 <=? e then Some (signed s (Z.pos m * 2 ^ e))
      else if Z.pos m mod 2 ^ (- e) =? 0 then Some (signed s (Z.pos m / 2 ^ (- e)))
      else None
  | _ => None
  end.

(** *** [a == b]

    Numbers compare by value across [bool], [int] and [float]; a NaN
    equals nothing; lists compare element by element and dictionaries
    key by key, whatever the order of insertion. *)

Fixpoint py_eq (a b : pyval) : bool :=
  match a, b with
  | PNone, PNone => true
  | PStr s, PStr t => PyStr.eqb s t
  | PList la, PList lb =>
      (fix list_eq (la lb : list pyval) : bool :=
         match la, lb with
         | [], [] => true
         | x :: la', y :: lb' => py_eq x y && list_eq la' lb'
         | _, _ => false
         end) la lb
  | PDict da, PDict db =>
      Nat.eqb (List.length da) (List.length db)
      && (fix items_eq (da : pydict) : bool :=
            match da with
            | [] => true
            | (k, v) :: da' =>
                match dict_get k db with
                | Some w => py_eq v w && items_eq da'
                | None => false
                end
            end) da
  | _, _ =>
      match num_of a, num_of b with
      | Some x, Some y => num_eqb x y
      | _, _ => false
      end
  end.

End Py.
Import Py.

(* ================================================================== *)
(** ** [datetime]: dates, [strftime('%Y-%m-%d')], [fromisoformat] *)

Module Datetime.

Record date : Type := mkdate { year : Z; month : Z; day : Z }.

(** A [datetime]: calendar date, time of day, and the UTC offset in
    microseconds when the value is timezone-aware. *)
Record datetime : Type := mkdatetime {
  dt_date : date;
  hour : Z; minute : Z; second : Z; microsecond : Z;
  tzoffset : option Z
}.

Definition is_leap (y : Z) : bool :=
  (y mod 4 =? 0) && (negb (y mod 100 =? 0) || (y mod 400 =? 0)).

Definition days_in_month (y m : Z) : Z :=
  if (m =? 2) then (if is_leap y then 29 else 28)
  else if (m =? 4) || (m =? 6) || (m =? 9) || (m =? 11) then 30
  else 31.

(** The range check of the [date] constructor (MINYEAR = 1, MAXYEAR = 9999). *)
Definition valid_date (d : date) : bool :=
  (1 <=? year d) && (year d <=? 9999)
  && (1 <=? month d) && (month d <=? 12)
  && (1 <=? day d) && (day d <=? days_in_month (year d) (month d)).

(** The range check of the [datetime] constructor; a UTC offset must be
    strictly between -24h and +24h. *)
Definition valid_datetime (t : datetime) : bool :=
  valid_date (dt_date t)
  && (0 <=? hour t) && (hour t <=? 23)
  && (0 <=? minute t) && (minute t <=? 59)
  && (0 <=? second t) && (second t <=? 59)
  && (0 <=? microsecond t) && (microsecond t <=? 999999)
  && match tzoffset t with
     | None => true
     | Some off => (-86400000000 <? off) && (off <? 86400000000)
     end.

(** [d.strftime('%Y-%m-%d')]: four, two and two zero-padded digits. *)
Definition strftime_Ymd (d : date) : pystr :=
  zfill 4 (year d) ++ str "-" ++ zfill 2 (month d) ++ str "-" ++ zfill 2 (day d).

(** [int(s)] for a fixed-width numeric field (ASCII digits only). *)
Definition int_field (s : pystr) : option Z := parse_digits s.

(** [_parse_isoformat_date]: the ten characters [YYYY-MM-DD]. *)
Definition parse_isoformat_date (dstr : pystr) : option date :=
  match int_field (slice 0 4 dstr), int_field (slice 5 7 dstr),
        int_field (slice 8 10 dstr) with
  | Some y, Some m, Some d =>
      if PyStr.eqb (slice 4 5 dstr) (str "-") && PyStr.eqb (slice 7 8 dstr) (str "-")
         && Nat.eqb (List.length (slice 0 4 dstr)) 4
         && Nat.eqb (List.length (slice 5 7 dstr)) 2
         && Nat.eqb (List.length (slice 8 10 dstr)) 2
      then Some (mkdate y m d) else None
  | _, _, _ => None
  end.

(** Two digits at the head of [s], and what follows them. *)
Definition two_digits (s : pystr) : option (Z * pystr) :=
  match s with
  | a :: b :: rest =>
      match digit a, digit b with
      | Some x, Some y => Some (10 * x + y, rest)
      | _, _ => None
      end
  | _ => None
  end.

(** The optional [.fff] or [.ffffff] that ends a time, in microseconds. *)
Definition parse_fraction (s : pystr) : option Z :=
  match s with
  | [] => Some 0
  | c :: f =>
      if negb (chr_eqb c 46) then None
      else if Nat.eqb (List.length f) 3 then option_map (Z.mul 1000) (int_field f)
      else if Nat.eqb (List.length f) 6 then int_field f
      else None
  end.

(** [_parse_hh_mm_ss_ff]: [HH[:MM[:SS[.fff[fff]]]]]. *)
Definition parse_hh_mm_ss_ff (tstr : pystr) : option (Z * Z * Z * Z) :=
  match two_digits tstr with
  | None => None
  | Some (h, []) => Some (h, 0, 0, 0)
  | Some (h, c1 :: r1) =>
      if negb (chr_eqb c1 58) then None else
      match two_digits r1 with
      | None => None
      | Some (m, []) => Some (h, m, 0, 0)
      | Some (m, c2 :: r2) =>
          if negb (chr_eqb c2 58) then None else
          match two_digits r2 with
          | None => None
          | Some (s, r3) =>
              match parse_fraction r3 with
              | Some us => Some (h, m, s, us)
              | None => None
              end
          end
      end
  end.

(** [s.find(c) + 1]: one more than the index of the first [c], 0 when absent. *)
Fixpoint find_plus_1 (c : N) (s : pystr) : nat :=
  match s with
  | [] => O
  | x :: s' => if chr_eqb x c then 1%nat
               else match find_plus_1 c s' with O => O | S n => S (S n) end
  end.

(** [_parse_isoformat_time]: a time of day and an optional UTC offset
    [+HH:MM[:SS[.ffffff]]] or [-HH:MM[:SS[.ffffff]]]. *)
Definition parse_isoformat_time (tstr : pystr) : option (Z * Z * Z * Z * option Z) :=
  if Nat.ltb (List.length tstr) 2 then None else
  let tz_pos := match find_plus_1 45 tstr with
                | O => find_plus_1 43 tstr
                | p => p
                end in
  let timestr := match tz_pos with O => tstr | S p => firstn p tstr end in
  match parse_hh_mm_ss_ff timestr with
  | None => None
  | Some (h, m, s, us) =>
      match tz_pos with
      | O => Some (h, m, s, us, None)
      | S p =>
          let tzstr := skipn (S p) tstr in
          let n := List.length tzstr in
          if negb (Nat.eqb n 5 || Nat.eqb n 8 || Nat.eqb n 15) then None else
          match parse_hh_mm_ss_ff tzstr with
          | None => None
          | Some (th, tm, ts, tus) =>
              let sign := if PyStr.eqb (slice p (S p) tstr) (str "-") then -1 else 1 in
              Some (h, m, s, us,
                    Some (sign * (((th * 60 + tm) * 60 + ts) * 1000000 + tus)))
          end
      end
  end.

(** [datetime.fromisoformat(date_string)], after the reference
    implementation of the format [datetime.isoformat()] emits:
    [YYYY-MM-DD[*HH[:MM[:SS[.fff[fff]]]][+HH:MM[:SS[.ffffff]]]]].
    [None] stands for the [ValueError] it raises.  (Later interpreters
    accept further ISO 8601 spellings; every string accepted here is
    accepted there.) *)
Definition fromisoformat (date_string : pystr) : option datetime :=
  let dstr := slice 0 10 date_string in
  let tstr := skipn 11 date_string in
  match parse_isoformat_date dstr with
  | None => None
  | Some d =>
      let time := match tstr with
                  | [] => Some (0, 0, 0, 0, None)
                  | _ => parse_isoformat_time tstr
                  end in
      match time with
      | None => None
      | Some (h, m, s, us, tz) =>
          let t := mkdatetime d h m s us tz in
          if valid_datetime t then Some t else None
      end
  end.

End Datetime.
Import Datetime.

(* ================================================================== *)
(** ** [jsonschema]: the keywords the two schemas use *)

Module JsonSchema.

Inductive jtype : Type :=
| TNull | TBoolean | TObject | TArray | TNumber | TString | TInteger.

(** A schema document restricted to the keywords of [BOOK_SCHEMA] and
    [BOOKS_LIST_SCHEMA].  An absent ["properties"] or ["required"] is the
    empty list; ["additionalProperties"] is [true] when absent. *)
#[warnings="-register-all"]
Inductive schema : Type :=
| Schema (s_type : option jtype)
         (s_properties : list (pystr * schema))
         (s_required : list pystr)
         (s_additionalProperties : bool)
         (s_items : option schema)
         (s_minItems : option Z)
         (s_minimum : option Z)
         (s_minLength : option Z)
         (s_format : option pystr).

(** The type checker of the current draft: [bool] is neither an integer
    nor a number, and a [float] without fractional part is an integer. *)
Definition is_type (t : jtype) (v : pyval) : bool :=
  match t, v with
  | TNull, PNone => true
  | TBoolean, PBool _ => true
  | TObject, PDict _ => true
  | TArray, PList _ => true
  | TString, PStr _ => true
  | TNumber, (PInt _ | PFloat _) => true
  | TInteger, PInt _ => true
  | TInteger, PFloat f => match float_to_Z f with Some _ => true | None => false end
  | _, _ => false
  end.

Definition kw_type (t : option jtype) (v : pyval) : list pystr :=
  match t with
  | Some ty => if is_type ty v then [] else [str "type"]
  | None => []
  end.

(** ["required"]: every listed name must be a key of an object. *)
Definition kw_required (req : list pystr) (v : pyval) : list pystr :=
  match v with
  | PDict d => flat_map (fun r => if dict_has r d then [] else [str "required"]) req
  | _ => []
  end.

(** ["additionalProperties": false]: an object may have no key outside
    ["properties"]. *)
Definition kw_additionalProperties (allowed : bool) (props : list pystr)
           (v : pyval) : list pystr :=
  match v with
  | PDict d =>
      if allowed then []
      else if forallb (fun k => existsb (PyStr.eqb k) props) (dict_keys d) then []
      else [str "additionalProperties"]
  | _ => []
  end.

Definition kw_minItems (n : option Z) (v : pyval) : list pystr :=
  match n, v with
  | Some m, PList l => if Z.of_nat (List.length l) <? m then [str "minItems"] else []
  | _, _ => []
  end.

(** ["minimum"]: a number (not a [bool]) must not be below it. *)
Definition kw_minimum (n : option Z) (v : pyval) : list pystr :=
  match n, v with
  | Some m, (PInt _ | PFloat _) =>
      match num_of v with
      | Some x => if num_ltb x (NumQ m 1) then [str "minimum"] else []
      | None => []
      end
  | _, _ => []
  end.

Definition kw_minLength (n : option Z) (v : pyval) : list pystr :=
  match n, v with
  | Some m, PStr s => if Z.of_nat (List.length s) <? m then [str "minLength"] else []
  | _, _ => []
  end.

(** [validator.iter_errors(instance)]: the keywords that fail, the
    sub-schemas of ["properties"] and ["items"] included.  ["format"] is
    an annotation: [validate] is called without a format checker. *)
Fixpoint iter_errors (s : schema) (v : pyval) {struct s} : list pystr :=
  match s with
  | Schema ty props req addl items minItems minimum minLength _ =>
      kw_type ty v
      ++ match v with
         | PDict d =>
             (fix each (ps : list (pystr * schema)) : list pystr :=
                match ps with
                | [] => []
                | (k, sub) :: ps' =>
                    match dict_get k d with
                    | Some x => iter_errors sub x
                    | None => []
                    end ++ each ps'
                end) props
         | _ => []
         end
      ++ kw_required req v
      ++ kw_additionalProperties addl (map fst props) v
      ++ match items, v with
         | Some sub, PList l => flat_map (iter_errors sub) l
         | _, _ => []
         end
      ++ kw_minItems minItems v
      ++ kw_minimum minimum v
      ++ kw_minLength minLength v
  end.

Fixpoint nodupb (l : list pystr) : bool :=
  match l with
  | [] => true
  | x :: l' => negb (existsb (PyStr.eqb x) l') && nodupb l'
  end.

(** [check_schema]: what the meta-schema asks of these keywords
    (["required"] has unique entries, the lengths are non-negative). *)
Fixpoint check_schema (s : schema) : bool :=
  match s with
  | Schema _ props req _ items minItems _ minLength _ =>
      nodupb req
      && match minItems with Some n => 0 <=? n | None => true end
      && match minLength with Some n => 0 <=? n | None => true end
      && (fix each (ps : list (pystr * schema)) : bool :=
            match ps with
            | [] => true
            | (_, sub) :: ps' => check_schema sub && each ps'
            end) props
      && match items with Some sub => check_schema sub | None => true end
  end.

(** [jsonschema.validate(instance=..., schema=...)]: raises [SchemaError]
    for a malformed schema, the validation error when a keyword fails,
    and returns [None] otherwise. *)
Definition validate (instance : pyval) (s : schema) : result unit :=
  if negb (check_schema s) then Raise (SchemaError (str "invalid schema"))
  else match iter_errors s instance with
       | [] => Ok tt
       | errs => Raise (SchemaViolation errs)
       end.

End JsonSchema.
Import JsonSchema.

(* ================================================================== *)
(** ** [utils/validators.py] *)

Module Validators.

(** *** class BookSchema(BaseModel) *)

Record BookSchema : Type := mkBookSchema {
  id : Z;
  title : pystr;
  description : pystr;
  pageCount : Z;
  excerpt : pystr;
  publishDate : pystr
}.

Definition validate_id (v : Z) : result Z :=
  if v <=? 0 then Raise (ValueError (str "Book ID must be positive"))
  else Ok v.

Definition validate_title (v : pystr) : result pystr :=
  if negb (truthy v) || negb (truthy (strip v))
  then Raise (ValueError (str "Title cannot be empty"))
  else Ok (strip v).

Definition validate_description (v : pystr) : result pystr :=
  if negb (truthy v) || negb (truthy (strip v))
  then Raise (ValueError (str "Description cannot be empty"))
  else Ok (strip v).

Definition validate_page_count (v : Z) : result Z :=
  if v <=? 0 then Raise (ValueError (str "Page count must be positive"))
  else Ok v.

Definition validate_excerpt (v : pyval) : result pyval :=
  match v with
  | PStr _ => Ok v
  | _ => Raise (ValueError (str "Excerpt must be a string"))
  end.

Definition validate_publish_date (v : pystr) : result pystr :=
  match fromisoformat (replace 90 (str "+00:00") v) with
  | Some _ => Ok v
  | None => Raise (ValueError (str "Invalid date format. Expected ISO format"))
  end.

(** What the model makes of one field: a value, one line of the
    validation error, or an exception that is not a validation failure
    and leaves the constructor as it is. *)
Inductive field_outcome (T : Type) : Type :=
| Valid (v : T)
| Invalid (msg : pystr)
| Propagate (e : exn).
Arguments Valid {T} v.
Arguments Invalid {T} msg.
Arguments Propagate {T} e.

(** A field validator's [ValueError] (or [AssertionError]) becomes a
    line of the validation error. *)
Definition after_validator {T} (r : result T) : field_outcome T :=
  match r with
  | Ok v => Valid v
  | Raise (ValueError m) => Invalid (str "Value error, " ++ m)
  | Raise (AssertionError m) => Invalid (str "Assertion failed, " ++ m)
  | Raise e => Propagate e
  end.

Section Model.

(** The model runs in pydantic's default (lax) mode: an [int] field also
    takes a [bool], a [float] without fractional part and a numeric
    [str].  How a [str] is read as an integer is the library's; it is a
    parameter here, and nothing below depends on it. *)
Variable str_as_int : pystr -> option Z.

Definition int_type (v : pyval) : field_outcome Z :=
  match v with
  | PInt z => Valid z
  | PBool b => Valid (if b then 1 else 0)
  | PFloat f =>
      match float_to_Z f with
      | Some z => Valid z
      | None => Invalid (str "Input should be a valid integer, got a number with a fractional part")
      end
  | PStr s =>
      match str_as_int s with
      | Some z => Valid z
      | None => Invalid (str "Input should be a valid integer, unable to parse string as an integer")
      end
  | _ => Invalid (str "Input should be a valid integer")
  end.

Definition str_type (v : pyval) : field_outcome pystr :=
  match v with
  | PStr s => Valid s
  | _ => Invalid (str "Input should be a valid string")
  end.

(** One field: required, then its type, then its [field_validator]. *)
Definition field {T U} (name : pystr) (data : pydict)
           (type : pyval -> field_outcome T) (validator : T -> result U)
  : field_outcome U :=
  match dict_get name data with
  | None => Invalid (str "Field required")
  | Some raw =>
      match type raw with
      | Valid v => after_validator (validator v)
      | Invalid m => Invalid m
      | Propagate e => Propagate e
      end
  end.

Definition excerpt_validator (v : pystr) : result pystr :=
  bind (validate_excerpt (PStr v)) (fun _ => Ok v).

(** The lines of the validation error, in field order. *)
Definition line {T} (name : pystr) (o : field_outcome T) : list (pystr * pystr) :=
  match o with Invalid m => [(name, m)] | _ => [] end.

Definition propagated {T} (o : field_outcome T) : option exn :=
  match o with Propagate e => Some e | _ => None end.

Definition first_some {A} (l : list (option A)) : option A :=
  fold_right (fun o acc => match o with Some a => Some a | None => acc end) None l.

(** The constructor call on the items of a [dict]: every field is validated, the
    failures are collected into one [ValidationError]; keys that are not
    fields are ignored. *)
Definition BookSchema_fields (data : pydict) : result BookSchema :=
  let f_id := field (str "id") data int_type validate_id in
  let f_title := field (str "title") data str_type validate_title in
  let f_description := field (str "description") data str_type validate_description in
  let f_pageCount := field (str "pageCount") data int_type validate_page_count in
  let f_excerpt := field (str "excerpt") data str_type excerpt_validator in
  let f_publishDate := field (str "publishDate") data str_type validate_publish_date in
  match first_some [propagated f_id; propagated f_title; propagated f_description;
                    propagated f_pageCount; propagated f_excerpt;
                    propagated f_publishDate] with
  | Some e => Raise e
  | None =>
      match f_id, f_title, f_description, f_pageCount, f_excerpt, f_publishDate with
      | Valid i, Valid t, Valid d, Valid p, Valid e, Valid pd =>
          Ok (mkBookSchema i t d p e pd)
      | _, _, _, _, _, _ =>
          Raise (ValidationError
                   (line (str "id") f_id ++ line (str "title") f_title
                    ++ line (str "description") f_description
                    ++ line (str "pageCount") f_pageCount
                    ++ line (str "excerpt") f_excerpt
                    ++ line (str "publishDate") f_publishDate))
      end
  end.

(** The constructor call with the payload unpacked as keyword arguments:
    unpacking needs a mapping. *)
Definition BookSchema_call (book_data : pyval) : result BookSchema :=
  match book_data with
  | PDict d => BookSchema_fields d
  | _ => Raise (TypeError (str "argument after ** must be a mapping"))
  end.

End Model.

(** [str(e)].  For a validation error: the count, the model's name, and
    for each failure the field and its message (the bracketed diagnostics
    pydantic appends to a line are left out). *)
Definition str_exn (e : exn) : pystr :=
  match e with
  | ValidationError errors =>
      of_Z (Z.of_nat (List.length errors)) ++ str " validation error"
      ++ (if Nat.eqb (List.length errors) 1 then [] else str "s")
      ++ str " for BookSchema"
      ++ flat_map (fun '(loc, m) => 10%N :: loc ++ 10%N :: str "  " ++ m) errors
  | SchemaViolation kws => List.concat kws
  | ValueError m | TypeError m | AttributeError m | AssertionError m
  | SchemaError m | OSError m | JSONDecodeError m | RequestsTimeout m
  | RequestsConnectionError m | RequestException m | OtherException m => m
  end.

(** *** class APIResponseValidator *)

Definition string_schema (minLength : option Z) (format : option pystr) : schema :=
  Schema (Some TString) [] [] true None None None minLength format.

Definition integer_schema (minimum : option Z) : schema :=
  Schema (Some TInteger) [] [] true None None minimum None None.

Definition BOOK_SCHEMA : schema :=
  Schema (Some TObject)
         [ (str "id", integer_schema (Some 1));
           (str "title", string_schema (Some 1) None);
           (str "description", string_schema (Some 1) None);
           (str "pageCount", integer_schema (Some 1));
           (str "excerpt", string_schema None None);
           (str "publishDate", string_schema None (Some (str "date-time"))) ]
         [ str "id"; str "title"; str "description"; str "pageCount";
           str "excerpt"; str "publishDate" ]
         false
         None None None None None.

Definition BOOKS_LIST_SCHEMA : schema :=
  Schema (Some TArray) [] [] true (Some BOOK_SCHEMA) (Some 0) None None None.

(** [except ValidationError] of jsonschema. *)
Definition is_jsonschema_ValidationError (e : exn) : bool :=
  match e with SchemaViolation _ => true | _ => false end.

Definition validate_book_response (response_data : pyval) : result bool :=
  try_except
    (bind (JsonSchema.validate response_data BOOK_SCHEMA) (fun _ => Ok true))
    is_jsonschema_ValidationError
    (fun _ => Ok false).

Definition validate_books_list_response (response_data : pyval) : result bool :=
  try_except
    (bind (JsonSchema.validate response_data BOOKS_LIST_SCHEMA) (fun _ => Ok true))
    is_jsonschema_ValidationError
    (fun _ => Ok false).

Definition validate_book_data (str_as_int : pystr -> option Z)
           (book_data : pyval) : result (list pystr) :=
  try_except
    (bind (BookSchema_call str_as_int book_data) (fun _ => Ok []))
    is_Exception
    (fun e => Ok [str_exn e]).

(** *** class ResponseAsserter *)

(** [assert cond, msg] *)
Definition py_assert (cond : bool) (msg : pystr) : result unit :=
  if cond then Ok tt else Raise (AssertionError msg).

Definition type_name (v : pyval) : pystr :=
  match v with
  | PNone => str "NoneType" | PBool _ => str "bool" | PInt _ => str "int"
  | PFloat _ => str "float" | PStr _ => str "str" | PList _ => str "list"
  | PDict _ => str "dict"
  end.

(** ['T' in v]: substring test on a [str], membership on a [list], key
    test on a [dict]; the other values are not containers. *)
Definition contains_T (v : pyval) : result bool :=
  match v with
  | PStr s => Ok (contains_chr 84 s)
  | PList l => Ok (existsb (py_eq (PStr (str "T"))) l)
  | PDict d => Ok (dict_has (str "T") d)
  | _ => Raise (TypeError (str "argument of type '" ++ type_name v
                           ++ str "' is not iterable"))
  end.

(** [v.split('T')[0] if 'T' in v else v] *)
Definition date_only (v : pyval) : result pyval :=
  bind (contains_T v) (fun has_T =>
    if has_T then
      match v with
      | PStr s => Ok (PStr (hd [] (split 84 s)))
      | _ => Raise (AttributeError (str "'" ++ type_name v
                                    ++ str "' object has no attribute 'split'"))
      end
    else Ok v).

(** The body of the loop of [assert_book_content] for a field that the
    actual payload has.  (The message names the field; the two values
    it also prints are left out.) *)
Definition assert_field (field : pystr) (actual_value expected_value : pyval)
  : result unit :=
  if PyStr.eqb field (str "publishDate") then
    bind (date_only expected_value) (fun expected_date =>
    bind (date_only actual_value) (fun actual_date =>
    py_assert (py_eq actual_date expected_date)
           (str "Field '" ++ field ++ str "' mismatch")))
  else
    py_assert (py_eq actual_value expected_value)
           (str "Field '" ++ field ++ str "' mismatch").

(** [for field, expected_value in expected_data.items(): ...] *)
Fixpoint assert_items (book_data : pydict) (items : list (pystr * pyval))
  : result unit :=
  match items with
  | [] => Ok tt
  | (field, expected_value) :: rest =>
      bind (match dict_get field book_data with
            | Some actual_value => assert_field field actual_value expected_value
            | None => Ok tt
            end)
           (fun _ => assert_items book_data rest)
  end.

Definition assert_book_content (book_data expected_data : pydict) : result unit :=
  assert_items book_data expected_data.

End Validators.

(* ================================================================== *)
(** ** [config/config.py] *)

Module Config.

(** The class attributes, as read from the environment at import. *)
Record Config : Type := mkConfig {
  API_BASE_URL : pystr;
  API_TIMEOUT : Z;
  API_VERSION : pystr;
  TEST_TIMEOUT : Z;
  MAX_RETRIES : Z;
  RETRY_DELAY : Z;
  TEST_DATA_DIR : pystr;
  TEST_DATA_FILE : pystr;
  LOG_LEVEL : pystr
}.

(** The values when no environment variable is set. *)
Definition defaults : Config :=
  mkConfig (str "https://fakerestapi.azurewebsites.net") 30 (str "v1") 60 3 1
           (str "tests/test_data") (str "test_books.json") (str "INFO").

Definition get_books_endpoint (cls : Config) : pystr :=
  API_BASE_URL cls ++ str "/api/" ++ API_VERSION cls ++ str "/Books".

Definition get_book_by_id_endpoint (cls : Config) (book_id : Z) : pystr :=
  get_books_endpoint cls ++ str "/" ++ of_Z book_id.

Definition valid_log_levels : list pystr :=
  [str "DEBUG"; str "INFO"; str "WARNING"; str "ERROR"; str "CRITICAL"].

(** The [try] block of [validate_config]: the lines it prints and its
    outcome. *)
Definition validate_config_body (cls : Config) : list pystr * result bool :=
  if negb (startswith (str "http://") (API_BASE_URL cls)
           || startswith (str "https://") (API_BASE_URL cls))
  then ([str "Invalid API_BASE_URL: " ++ API_BASE_URL cls], Ok false)
  else if (API_TIMEOUT cls <=? 0) || (TEST_TIMEOUT cls <=? 0)
  then ([str "Timeouts must be positive values"], Ok false)
  else if (MAX_RETRIES cls <? 0) || (RETRY_DELAY cls <? 0)
  then ([str "Retry settings must be non-negative"], Ok false)
  else if negb (existsb (PyStr.eqb (LOG_LEVEL cls)) valid_log_levels)
  then ([str "Invalid LOG_LEVEL: " ++ LOG_LEVEL cls], Ok false)
  else ([], Ok true).

(** [validate_config]: what is printed, and the outcome of the call. *)
Definition validate_config (cls : Config) : list pystr * result bool :=
  let (out, r) := validate_config_body cls in
  match r with
  | Ok b => (out, Ok b)
  | Raise e =>
      if is_Exception e
      then (out ++ [str "Configuration validation error: " ++ Validators.str_exn e],
            Ok false)
      else (out, Raise e)
  end.

End Config.

(* ================================================================== *)
(** ** [utils/api_client.py] *)

Module ApiClient.

Record Response : Type := mkResponse {
  status_code : Z;
  headers : list (pystr * pystr);
  text : pystr
}.

Inductive level : Type := DEBUG | INFO | WARNING | ERROR.

(** One call of the [logging] module. *)
Definition log_record : Type := (level * pystr)%type.

(** [requests.exceptions]: [Timeout] and [ConnectionError] derive from
    [RequestException]. *)
Definition is_Timeout (e : exn) : bool :=
  match e with RequestsTimeout _ => true | _ => false end.

Definition is_ConnectionError (e : exn) : bool :=
  match e with RequestsConnectionError _ => true | _ => false end.

Definition is_RequestException (e : exn) : bool :=
  match e with
  | RequestsTimeout _ | RequestsConnectionError _ | RequestException _ => true
  | _ => false
  end.

Definition render_headers (h : list (pystr * pystr)) : pystr :=
  flat_map (fun '(k, v) => k ++ str ": " ++ v ++ str "; ") h.

(** [_make_request]: [session] is [self.session.request] with the
    timeout and keyword arguments bound (the retrying adapter included);
    the result is the records logged and the outcome of the call. *)
Definition _make_request (session : pystr -> pystr -> result Response)
           (method url : pystr) : list log_record * result Response :=
  let started := [(DEBUG, str "Making " ++ method ++ str " request to " ++ url)] in
  match session method url with
  | Ok response =>
      (started
       ++ [(DEBUG, str "Response status: " ++ of_Z (status_code response));
           (DEBUG, str "Response headers: " ++ render_headers (headers response))]
       ++ [if 400 <=? status_code response
           then (WARNING, str "Request failed with status "
                          ++ of_Z (status_code response) ++ str ": " ++ text response)
           else (DEBUG, str "Request successful: " ++ of_Z (status_code response))],
       Ok response)
  | Raise e =>
      if is_Timeout e then
        (started ++ [(ERROR, str "Request timeout for " ++ method ++ str " " ++ url)],
         Raise e)
      else if is_ConnectionError e then
        (started ++ [(ERROR, str "Connection error for " ++ method ++ str " " ++ url)],
         Raise e)
      else if is_RequestException e then
        (started ++ [(ERROR, str "Request error for " ++ method ++ str " " ++ url
                             ++ str ": " ++ Validators.str_exn e)],
         Raise e)
      else (started, Raise e)
  end.

End ApiClient.

(* ================================================================== *)
(** ** [utils/test_data_generator.py] *)

Module TestDataGenerator.

(** *** Random sources and the clock

    [G] is the state of the [random] module, of the [Faker] instance and
    of the clock; each library call reads it and leaves a new one. *)
Record Sources (G : Type) : Type := mkSources {
  randint : Z -> Z -> G -> Z * G;
  catch_phrase : G -> pystr * G;
  text : Z -> G -> pystr * G;
  date_between : G -> date * G;
  now : G -> date * G
}.
Arguments randint {G} _ _ _ _.
Arguments catch_phrase {G} _ _.
Arguments text {G} _ _ _.
Arguments date_between {G} _ _.
Arguments now {G} _ _.

(** What the libraries document of these calls: [randint(a, b)] lies in
    [a..b]; a catch phrase and a generated text have a character that is
    not white space; [date_between] and [now] give calendar dates. *)
Record lawful {G : Type} (src : Sources G) : Prop := mkLawful {
  randint_range : forall a b g, a <= b -> a <= fst (randint src a b g) <= b;
  catch_phrase_not_blank : forall g, truthy (strip (fst (catch_phrase src g))) = true;
  text_not_blank : forall n g, 5 <= n -> truthy (strip (fst (text src n g))) = true;
  date_between_valid : forall g, valid_date (fst (date_between src g)) = true;
  now_valid : forall g, valid_date (fst (now src g)) = true
}.

(** Computations that draw from the sources. *)
Definition Gen (G A : Type) : Type := G -> A * G.

Definition gret {G A} (a : A) : Gen G A := fun g => (a, g).

Definition gbind {G A B} (c : Gen G A) (k : A -> Gen G B) : Gen G B :=
  fun g => k (fst (c g)) (snd (c g)).

Declare Scope gen_scope.
Delimit Scope gen_scope with gen.
Notation "x <- c ;; k" := (gbind c (fun x => k))
  (at level 61, c at next level, right associativity) : gen_scope.

(** *** The disk

    A file holds the JSON document it decodes to ([json.dump] writes it,
    [json.load] returns it) or text that does not decode; it may be
    closed to reading.  [writable] tells whether the directory can be
    made and the file opened for writing. *)
Inductive content : Type :=
| Document (v : pyval)
| Garbled.

Record file : Type := mkfile { data : content; readable : bool }.

Record fs : Type := mkfs { files : list (pystr * file); writable : bool }.

Fixpoint lookup (path : pystr) (l : list (pystr * file)) : option file :=
  match l with
  | [] => None
  | (p, f) :: l' => if PyStr.eqb path p then Some f else lookup path l'
  end.

(** [dir / name] of [pathlib]. *)
Definition path_join (dir name : pystr) : pystr :=
  if startswith (str "/") name then name
  else match name with [] => dir | _ => dir ++ str "/" ++ name end.

(** [filepath.exists()] *)
Definition exists_ (path : pystr) (d : fs) : bool :=
  match lookup path (files d) with Some _ => true | None => false end.

(** [filepath.parent.mkdir(exist_ok=True)] then [open(filepath, 'w')]
    and [json.dump]: a new file is readable, an old one keeps its mode. *)
Definition write_json (path : pystr) (v : pyval) (d : fs) : result unit * fs :=
  if writable d then
    let mode := match lookup path (files d) with
                | Some f => readable f
                | None => true
                end in
    (Ok tt, mkfs ((path, mkfile (Document v) mode) :: files d) (writable d))
  else (Raise (OSError (str "cannot write " ++ path)), d).

(** [open(filepath, 'r')] then [json.load]. *)
Definition read_json (path : pystr) (d : fs) : result pyval :=
  match lookup path (files d) with
  | None => Raise (OSError (str "No such file or directory: " ++ path))
  | Some f =>
      if negb (readable f) then Raise (OSError (str "Permission denied: " ++ path))
      else match data f with
           | Document v => Ok v
           | Garbled => Raise (JSONDecodeError (str "Expecting value"))
           end
  end.

(** Computations on the sources and the disk that may raise. *)
Definition M (G A : Type) : Type := G * fs -> result A * (G * fs).

Definition mret {G A} (a : A) : M G A := fun w => (Ok a, w).

Definition mbind {G A B} (c : M G A) (k : A -> M G B) : M G B :=
  fun w => match c w with
           | (Ok a, w') => k a w'
           | (Raise e, w') => (Raise e, w')
           end.

Definition lift {G A} (c : Gen G A) : M G A :=
  fun w => (Ok (fst (c (fst w))), (snd (c (fst w)), snd w)).

(** [try: body  except Exception: handler]; what the body did to the
    sources and the disk before it raised stays done. *)
Definition mtry {G A} (body : M G A) (handler : exn -> M G A) : M G A :=
  fun w => match body w with
           | (Ok a, w') => (Ok a, w')
           | (Raise e, w') => if is_Exception e then handler e w' else (Raise e, w')
           end.

Declare Scope m_scope.
Delimit Scope m_scope with m.
Notation "x <- c ;; k" := (mbind c (fun x => k))
  (at level 61, c at next level, right associativity) : m_scope.

Section Generator.

Context {G : Type}.
Variable src : Sources G.
Variable cfg : Config.Config.

Definition generate_book_data (book_id : option Z) : Gen G pyval :=
  (book_id <- match book_id with
              | None => randint src 1000 9999
              | Some i => gret i
              end ;;
   title <- catch_phrase src ;;
   description <- text src 200 ;;
   pageCount <- randint src 50 1000 ;;
   excerpt <- text src 500 ;;
   published <- date_between src ;;
   gret (PDict [ (str "id", PInt book_id);
                 (str "title", PStr title);
                 (str "description", PStr description);
                 (str "pageCount", PInt pageCount);
                 (str "excerpt", PStr excerpt);
                 (str "publishDate", PStr (strftime_Ymd published)) ]))%gen.

(** [d[k] = v] and [d.pop(k, None)] on a payload. *)
Definition set_item (k : pystr) (v : pyval) (payload : pyval) : pyval :=
  match payload with PDict d => PDict (dict_set k v d) | _ => payload end.

Definition pop_item (k : pystr) (payload : pyval) : pyval :=
  match payload with PDict d => PDict (dict_pop k d) | _ => payload end.

Definition mode_is (invalid_field : option pystr) (name : string) : bool :=
  match invalid_field with
  | Some m => PyStr.eqb m (str name)
  | None => false
  end.

Definition generate_invalid_book_data (invalid_field : option pystr) : Gen G pyval :=
  (valid_data <- generate_book_data None ;;
   gret (if mode_is invalid_field "missing_required" then
           pop_item (str "pageCount")
             (pop_item (str "description") (pop_item (str "title") valid_data))
         else if mode_is invalid_field "wrong_types" then
           set_item (str "title") (PInt 12345)
             (set_item (str "pageCount") (PStr (str "not_a_number"))
                (set_item (str "id") (PStr (str "not_an_integer")) valid_data))
         else if mode_is invalid_field "empty_values" then
           set_item (str "excerpt") (PStr [])
             (set_item (str "description") (PStr [])
                (set_item (str "title") (PStr []) valid_data))
         else if mode_is invalid_field "negative_values" then
           set_item (str "pageCount") (PInt (-100))
             (set_item (str "id") (PInt (-1)) valid_data)
         else if mode_is invalid_field "invalid_date" then
           set_item (str "publishDate") (PStr (str "invalid-date-format")) valid_data
         else
           set_item (str "publishDate") (PStr (str "not-a-date"))
             (set_item (str "pageCount") (PInt (-50))
                (set_item (str "title") (PStr []) valid_data))))%gen.

Definition special_chars : pystr :=
  [52840; 52824; 52832; 52836; 52841; 52848]%N
  ++ str "@#$%^&*()_+-=[]{}|;':" ++ [34%N] ++ str ",./<>?".

Definition unicode_text : pystr :=
  str "Unicode: " ++ [25812; 47676; 48399; 30136; 46250; 46003]%N
  ++ str " " ++ [28216; 44660]%N ++ str " " ++ [28216]%N
  ++ str " " ++ [28216; 45764]%N.

Definition sql_injection : pystr := str "'; DROP TABLE books; --".

Definition xss_attempt : pystr := str "<script>alert('XSS')</script>".

(** One entry of the edge-case list. *)
Definition edge_case (name : string) (book_id : Z) (title description : pystr)
           (pageCount : Z) (excerpt publishDate : pystr) : pyval :=
  PDict [ (str "name", PStr (str name));
          (str "data",
           PDict [ (str "id", PInt book_id);
                   (str "title", PStr title);
                   (str "description", PStr description);
                   (str "pageCount", PInt pageCount);
                   (str "excerpt", PStr excerpt);
                   (str "publishDate", PStr publishDate) ]) ].

(** An entry whose id is drawn and whose date is today's. *)
Definition drawn_edge_case (name : string) (title description : pystr)
           (pageCount : Z) (excerpt : pystr) : Gen G pyval :=
  (book_id <- randint src 1000 9999 ;;
   today <- now src ;;
   gret (edge_case name book_id title description pageCount excerpt
                   (strftime_Ymd today)))%gen.

Definition generate_edge_case_data : Gen G (list pyval) :=
  (c1 <- drawn_edge_case "very_long_strings"
           (times 65 1000) (times 66 2000) 500 (times 67 5000) ;;
   c2 <- drawn_edge_case "special_characters"
           (str "Book with " ++ special_chars)
           (str "Description with " ++ special_chars) 300
           (str "Excerpt with " ++ special_chars) ;;
   c4 <- drawn_edge_case "unicode_characters"
           unicode_text (str "Description with " ++ unicode_text) 400
           (str "Excerpt with " ++ unicode_text) ;;
   c5 <- drawn_edge_case "sql_injection"
           sql_injection (str "Description with " ++ sql_injection) 250
           (str "Excerpt with " ++ sql_injection) ;;
   c6 <- drawn_edge_case "xss_attempt"
           xss_attempt (str "Description with " ++ xss_attempt) 350
           (str "Excerpt with " ++ xss_attempt) ;;
   gret [ c1; c2;
          edge_case "extreme_values" 999999999 (str "Book with extreme values")
                    (str "Description") 999999 (str "Excerpt")
                    (str "1900-01-01T00:00:00.000Z");
          c4; c5; c6 ])%gen.

(** [for i in range(count): books.append(self.generate_book_data())] *)
Fixpoint generate_books (count : nat) : Gen G (list pyval) :=
  match count with
  | O => gret []
  | S n => (book_data <- generate_book_data None ;;
            books <- generate_books n ;;
            gret (book_data :: books))%gen
  end.

Definition generate_multiple_books (count : Z) : Gen G (list pyval) :=
  generate_books (Z.to_nat count).

(** The three-key bundle. *)
Definition bundle (valid invalid edge : list pyval) : pyval :=
  PDict [ (str "valid_books", PList valid);
          (str "invalid_books", PList invalid);
          (str "edge_cases", PList edge) ].

Definition filepath (filename : pystr) : pystr :=
  path_join (Config.TEST_DATA_DIR cfg) filename.

Definition save_test_data_to_file (filename : pystr) : M G unit :=
  (test_data <- lift (valid <- generate_multiple_books 5 ;;
                      i1 <- generate_invalid_book_data (Some (str "missing_required")) ;;
                      i2 <- generate_invalid_book_data (Some (str "wrong_types")) ;;
                      i3 <- generate_invalid_book_data (Some (str "empty_values")) ;;
                      edge <- generate_edge_case_data ;;
                      gret (bundle valid [i1; i2; i3] edge))%gen ;;
   (fun w => (fst (write_json (filepath filename) test_data (snd w)),
              (fst w, snd (write_json (filepath filename) test_data (snd w))))))%m.

Definition _generate_fallback_data : Gen G pyval :=
  (valid <- generate_multiple_books 3 ;;
   i1 <- generate_invalid_book_data (Some (str "missing_required")) ;;
   i2 <- generate_invalid_book_data (Some (str "wrong_types")) ;;
   edge <- generate_edge_case_data ;;
   gret (bundle valid [i1; i2] (firstn 2 edge)))%gen.

(** [open(filepath, 'r')] and [json.load] in the current world. *)
Definition load_json (path : pystr) : M G pyval :=
  fun w => (read_json path (snd w), w).

Definition load_test_data_from_file (filename : pystr) : M G pyval :=
  mtry
    (fun w =>
       if exists_ (filepath filename) (snd w) then
         load_json (filepath filename) w
       else
         (_ <- save_test_data_to_file filename ;;
          load_json (filepath filename))%m w)
    (fun _ => lift _generate_fallback_data).

End Generator.

(** *** Reading a bundle *)

(** [len(bundle[key])] *)
Definition count_of (key : string) (b : pyval) : option nat :=
  match b with
  | PDict d => match dict_get (str key) d with
               | Some (PList l) => Some (List.length l)
               | _ => None
               end
  | _ => None
  end.

Definition counts (b : pyval) : option nat * option nat * option nat :=
  (count_of "valid_books" b, count_of "invalid_books" b, count_of "edge_cases" b).

End TestDataGenerator.

(* ================================================================== *)
(** ** The specification's reading of the checks *)

Module Spec.

(** *** Object-model check: the field constraints *)

Section ObjectModel.

Variable str_as_int : pystr -> option Z.

(** The integer the typed record holds for an [int] field. *)
Definition int_field_value (name : string) (d : pydict) : option Z :=
  match dict_get (str name) d with
  | Some raw =>
      match Validators.int_type str_as_int raw with
      | Validators.Valid z => Some z
      | _ => None
      end
  | None => None
  end.

(** The text the typed record holds for a [str] field. *)
Definition str_field_value (name : string) (d : pydict) : option pystr :=
  match dict_get (str name) d with
  | Some (PStr s) => Some s
  | _ => None
  end.

(** ISO-8601-parseable, a literal [Z] standing for the UTC offset. *)
Definition iso_parseable (s : pystr) : Prop :=
  exists t, fromisoformat (replace 90 (str "+00:00") s) = Some t.

(** Every field constraint holds: id > 0, title and description non-empty
    after trimming, pageCount > 0, excerpt a string, publishDate
    parseable. *)
Definition constraints_hold (d : pydict) : Prop :=
  (exists i, int_field_value "id" d = Some i /\ 0 < i)
  /\ (exists t, str_field_value "title" d = Some t /\ strip t <> [])
  /\ (exists t, str_field_value "description" d = Some t /\ strip t <> [])
  /\ (exists p, int_field_value "pageCount" d = Some p /\ 0 < p)
  /\ (exists e, str_field_value "excerpt" d = Some e)
  /\ (exists s, str_field_value "publishDate" d = Some s /\ iso_parseable s).

End ObjectModel.

(** *** Structural check: the fixed schema *)

Definition book_keys : list pystr :=
  [str "id"; str "title"; str "description"; str "pageCount"; str "excerpt";
   str "publishDate"].

(** An integer that is at least 1 (a number without fractional part is
    an integer, whichever way the decoder stored it). *)
Definition integer_ge_1 (v : pyval) : Prop :=
  exists z, (v = PInt z \/ exists f, v = PFloat f /\ float_to_Z f = Some z) /\ 1 <= z.

Definition is_string (v : pyval) : Prop := exists s, v = PStr s.

Definition nonempty_string (v : pyval) : Prop := exists s, v = PStr s /\ s <> [].

(** The value of key [name] satisfies [P]. *)
Definition has (name : string) (P : pyval -> Prop) (d : pydict) : Prop :=
  exists x, dict_get (str name) d = Some x /\ P x.

(** A single object conforms: precisely the six keys, each of its type. *)
Definition conforms (v : pyval) : Prop :=
  exists d, v = PDict d
  /\ (forall k, dict_has k d = true <-> In k book_keys)
  /\ has "id" integer_ge_1 d
  /\ has "title" nonempty_string d
  /\ has "description" nonempty_string d
  /\ has "pageCount" integer_ge_1 d
  /\ has "excerpt" is_string d
  /\ has "publishDate" is_string d.

(** The errors of a property's sub-schema, when the key is present. *)
Definition property_errors (name : string) (sub : schema) (d : pydict) : list pystr :=
  match dict_get (str name) d with
  | Some x => iter_errors sub x
  | None => []
  end.

(** An element that lacks the key [excerpt]. *)
Definition lacks_excerpt (v : pyval) : Prop :=
  forall d, v = PDict d -> dict_has (str "excerpt") d = false.

(** *** Content equality: the date-only portion *)

(** The text before any [T]. *)
Fixpoint before_T (s : pystr) : pystr :=
  match s with
  | [] => []
  | c :: s' => if chr_eqb c 84 then [] else c :: before_T s'
  end.

(** *** Configuration: the reasons to refuse *)

Definition has_scheme (url : pystr) : Prop :=
  (exists rest, url = str "http://" ++ rest)
  \/ (exists rest, url = str "https://" ++ rest).

Definition config_refused (cls : Config.Config) : Prop :=
  ~ has_scheme (Config.API_BASE_URL cls)
  \/ Config.API_TIMEOUT cls <= 0 \/ Config.TEST_TIMEOUT cls <= 0
  \/ Config.MAX_RETRIES cls < 0 \/ Config.RETRY_DELAY cls < 0
  \/ ~ In (Config.LOG_LEVEL cls) Config.valid_log_levels.

End Spec.

(* ================================================================== *)
(** ** Proof steps *)

(** A field validator either returns or raises [ValueError]: in both
    cases the model has a value or a line, never a stray exception. *)
Ltac validator_raises_value_error :=
  intro v; cbv [Validators.validate_id Validators.validate_title
                Validators.validate_description Validators.validate_page_count
                Validators.excerpt_validator Validators.validate_excerpt
                Validators.validate_publish_date bind];
  match goal with
  | |- context [if ?c then _ else _] => destruct c
  | |- context [match ?c with Some _ => _ | None => _ end] => destruct c
  | _ => idtac
  end; reflexivity.

(* ================================================================== *)
(** ** A deterministic instance of the sources, and sample disks *)

Module Sample.
Import TestDataGenerator.

(** The state counts the calls made; every draw is the same. *)
Definition sources : Sources nat :=
  mkSources nat
    (fun a _ g => (a, S g))
    (fun g => (str "Networked systemic hub", S g))
    (fun _ g => (str "Sense decide near. Policy item who.", S g))
    (fun g => (mkdate 2021 6 15, S g))
    (fun g => (mkdate 2024 2 29, S g)).

(** Numeric strings read as decimal digits (a choice for the samples). *)
Definition digits_only (s : pystr) : option Z := parse_digits s.


(** A disk without the fixture file. *)
Definition empty_disk : fs := mkfs [] true.


(** A payload that violates three constraints at once. *)
Definition bad_book : pyval :=
  PDict [ (str "id", PInt 7); (str "title", PStr []);
          (str "description", PStr (str "D")); (str "pageCount", PInt (-50));
          (str "excerpt", PStr (str "E"));
          (str "publishDate", PStr (str "not-a-date")) ].

Definition good_book : pyval :=
  PDict [ (str "id", PInt 1000); (str "title", PStr (str "T"));
          (str "description", PStr (str "D")); (str "pageCount", PInt 10);
          (str "excerpt", PStr (str "E"));
          (str "publishDate", PStr (str "2023-01-01")) ].

(** [good_book] without its excerpt. *)
Definition book_without_excerpt : pyval :=
  PDict [ (str "id", PInt 1000); (str "title", PStr (str "T"));
          (str "description", PStr (str "D")); (str "pageCount", PInt 10);
          (str "publishDate", PStr (str "2023-01-01")) ].

End Sample.

(* ================================================================== *)
(** * Properties *)

(** ** Strings and digits *)

Module PyStrFacts.

Lemma eqb_refl (s : pystr) : PyStr.eqb s s = true.
Proof.
  induction s as [|c s IH]; simpl; [reflexivity|].
  unfold chr_eqb. rewrite N.eqb_refl. exact IH.
Qed.

Lemma eqb_eq (s t : pystr) : PyStr.eqb s t = true <-> s = t.
Proof.
  revert t. induction s as [|c s IH]; intros [|d t]; simpl; split; intro H;
    try reflexivity; try discriminate.
  - apply andb_true_iff in H as [Hc Hs]. apply N.eqb_eq in Hc. apply IH in Hs.
    now subst.
  - injection H as -> ->. unfold chr_eqb. rewrite N.eqb_refl. now apply IH.
Qed.

Lemma eqb_neq (s t : pystr) : PyStr.eqb s t = false <-> s <> t.
Proof.
  split.
  - intros H E. apply eqb_eq in E. congruence.
  - intro H. destruct (PyStr.eqb s t) eqn:E; [|reflexivity].
    apply eqb_eq in E. contradiction.
Qed.

Lemma truthy_strip (s : pystr) : truthy (strip s) = true -> truthy s = true.
Proof. destruct s; [discriminate | reflexivity]. Qed.

Lemma digit_of_mod (n : Z) : digit (48 + Z.to_N (n mod 10)) = Some (n mod 10).
Proof.
  pose proof (Z.mod_pos_bound n 10 ltac:(lia)) as B.
  unfold digit.
  replace ((48 <=? 48 + Z.to_N (n mod 10))%N && (48 + Z.to_N (n mod 10) <=? 57)%N)
    with true.
  - f_equal. lia.
  - symmetry. apply andb_true_iff. split; apply N.leb_le; lia.
Qed.

Lemma digits_value_app (s t : pystr) : forall acc,
  digits_value acc (s ++ t)
  = match digits_value acc s with
    | Some v => digits_value v t
    | None => None
    end.
Proof.
  induction s as [|c s IH]; intro acc; simpl; [reflexivity|].
  destruct (digit c); [apply IH | reflexivity].
Qed.

Lemma zfill_succ (w : nat) (n : Z) :
  zfill (S w) n = zfill w (n / 10) ++ [(48 + Z.to_N (n mod 10))%N].
Proof. reflexivity. Qed.

Lemma zfill_length (w : nat) : forall n, List.length (zfill w n) = w.
Proof.
  induction w as [|w IH]; intro n; [reflexivity|].
  rewrite zfill_succ, length_app, IH. simpl. lia.
Qed.

(** Reading back [w] zero-padded digits gives the number modulo [10^w]. *)
Lemma digits_value_zfill (w : nat) : forall n acc,
  digits_value acc (zfill w n) = Some (acc * 10 ^ Z.of_nat w + n mod 10 ^ Z.of_nat w).
Proof.
  induction w as [|w IH]; intros n acc.
  - simpl. rewrite Z.mod_1_r. f_equal. lia.
  - rewrite zfill_succ, digits_value_app, IH. cbn [digits_value].
    rewrite digit_of_mod. f_equal.
    rewrite Nat2Z.inj_succ, Z.pow_succ_r by lia.
    rewrite (Z.rem_mul_r n 10 (10 ^ Z.of_nat w)) by lia.
    lia.
Qed.

Lemma parse_digits_zfill (w : nat) (n : Z) :
  (0 < w)%nat -> 0 <= n < 10 ^ Z.of_nat w -> parse_digits (zfill w n) = Some n.
Proof.
  intros Hw Hn. unfold parse_digits.
  destruct (zfill w n) eqn:E.
  - pose proof (zfill_length w n) as L. rewrite E in L. simpl in L. lia.
  - rewrite <- E, digits_value_zfill. f_equal. rewrite Z.mod_small; lia.
Qed.

End PyStrFacts.

(** ** Dates *)

Module DatetimeFacts.
Import PyStrFacts.

Lemma valid_date_bounds (d : date) :
  valid_date d = true ->
  1 <= year d <= 9999 /\ 1 <= month d <= 12 /\ 1 <= day d <= 31.
Proof.
  unfold valid_date, days_in_month. intro H.
  repeat (apply andb_true_iff in H as [H ?]).
  repeat match goal with
         | H : (_ <=? _) = true |- _ => apply Z.leb_le in H
         end.
  destruct (month d =? 2); [destruct (is_leap (year d))|];
    try destruct ((month d =? 4) || (month d =? 6) || (month d =? 9) || (month d =? 11));
    lia.
Qed.

(** The ten characters [strftime('%Y-%m-%d')] writes are read back as the
    same calendar date. *)
Lemma parse_isoformat_date_strftime (d : date) :
  valid_date d = true ->
  slice 0 10 (strftime_Ymd d) = strftime_Ymd d
  /\ skipn 11 (strftime_Ymd d) = []
  /\ parse_isoformat_date (strftime_Ymd d) = Some d.
Proof.
  intro V. destruct (valid_date_bounds d V) as (Hy & Hm & Hd).
  pose proof (parse_digits_zfill 4 (year d) ltac:(lia) ltac:(simpl; lia)) as Py.
  pose proof (parse_digits_zfill 2 (month d) ltac:(lia) ltac:(simpl; lia)) as Pm.
  pose proof (parse_digits_zfill 2 (day d) ltac:(lia) ltac:(simpl; lia)) as Pd.
  pose proof (zfill_length 4 (year d)) as Ly.
  pose proof (zfill_length 2 (month d)) as Lm.
  pose proof (zfill_length 2 (day d)) as Ld.
  unfold strftime_Ymd.
  destruct (zfill 4 (year d)) as [|y1 [|y2 [|y3 [|y4 [|]]]]]; try discriminate Ly.
  destruct (zfill 2 (month d)) as [|m1 [|m2 [|]]]; try discriminate Lm.
  destruct (zfill 2 (day d)) as [|d1 [|d2 [|]]]; try discriminate Ld.
  repeat split.
  unfold parse_isoformat_date, int_field.
  change (slice 0 4 _) with [y1; y2; y3; y4].
  change (slice 5 7 _) with [m1; m2].
  change (slice 8 10 _) with [d1; d2].
  rewrite Py, Pm, Pd. simpl. destruct d; reflexivity.
Qed.

(** [fromisoformat] accepts what [strftime('%Y-%m-%d')] writes. *)
Lemma fromisoformat_strftime (d : date) :
  valid_date d = true ->
  fromisoformat (strftime_Ymd d) = Some (mkdatetime d 0 0 0 0 None).
Proof.
  intro V. destruct (parse_isoformat_date_strftime d V) as (S1 & S2 & P).
  unfold fromisoformat. rewrite S1, S2, P.
  unfold valid_datetime. cbn [dt_date hour minute second microsecond tzoffset].
  rewrite V. reflexivity.
Qed.

(** A date written by [strftime('%Y-%m-%d')] has no [Z] in it. *)
Lemma replace_Z_strftime (d : date) :
  valid_date d = true ->
  replace 90 (str "+00:00") (strftime_Ymd d) = strftime_Ymd d.
Proof.
  intro V. destruct (valid_date_bounds d V) as (Hy & Hm & Hd).
  unfold strftime_Ymd, zfill. cbn [digits_rev rev app].
  assert (D : forall n, chr_eqb (48 + Z.to_N (n mod 10)) 90 = false).
  { intro n. pose proof (Z.mod_pos_bound n 10 ltac:(lia)).
    unfold chr_eqb. apply N.eqb_neq. lia. }
  cbn [replace str map list_ascii_of_string app].
  rewrite !D. reflexivity.
Qed.

End DatetimeFacts.

(** ** The object-model check *)

Module ObjectModelFacts.
Import PyStrFacts DatetimeFacts Validators Spec.

Lemma truthy_nonempty (s : pystr) : truthy s = true <-> s <> [].
Proof. destruct s; simpl; split; congruence. Qed.

Lemma not_blank_iff (v : pystr) :
  negb (truthy v) || negb (truthy (strip v)) = false <-> strip v <> [].
Proof.
  rewrite <- truthy_nonempty. split.
  - intro H. apply orb_false_iff in H as [_ H]. now apply negb_false_iff in H.
  - intro H. rewrite H, (truthy_strip v H). reflexivity.
Qed.

Section Facts.
Variable str_as_int : pystr -> option Z.

Lemma propagated_field {T U} (name : pystr) (d : pydict)
      (type : pyval -> field_outcome T) (validator : T -> result U) :
  (forall raw, propagated (type raw) = None) ->
  (forall v, propagated (after_validator (validator v)) = None) ->
  propagated (field name d type validator) = None.
Proof.
  intros Ht Hv. unfold field. destruct (dict_get name d) as [raw|]; [|reflexivity].
  specialize (Ht raw). destruct (type raw); [apply Hv | reflexivity | discriminate].
Qed.

Lemma int_type_no_propagate (raw : pyval) : propagated (int_type str_as_int raw) = None.
Proof.
  destruct raw; simpl; try reflexivity.
  - destruct (float_to_Z f); reflexivity.
  - destruct (str_as_int s); reflexivity.
Qed.

Lemma str_type_no_propagate (raw : pyval) : propagated (str_type raw) = None.
Proof. destruct raw; reflexivity. Qed.

(** No field of the model lets an exception through: a failure is a line
    of the validation error. *)
Lemma no_field_propagates (d : pydict) :
  first_some
    [propagated (field (str "id") d (int_type str_as_int) validate_id);
     propagated (field (str "title") d str_type validate_title);
     propagated (field (str "description") d str_type validate_description);
     propagated (field (str "pageCount") d (int_type str_as_int) validate_page_count);
     propagated (field (str "excerpt") d str_type excerpt_validator);
     propagated (field (str "publishDate") d str_type validate_publish_date)]
  = None.
Proof.
  rewrite !propagated_field;
    auto using int_type_no_propagate, str_type_no_propagate;
    validator_raises_value_error.
Qed.

(** The constructor succeeds exactly when each field yields a value. *)
Lemma BookSchema_fields_Ok (d : pydict) (b : BookSchema) :
  BookSchema_fields str_as_int d = Ok b <->
  field (str "id") d (int_type str_as_int) validate_id = Valid (id b)
  /\ field (str "title") d str_type validate_title = Valid (title b)
  /\ field (str "description") d str_type validate_description = Valid (description b)
  /\ field (str "pageCount") d (int_type str_as_int) validate_page_count
     = Valid (pageCount b)
  /\ field (str "excerpt") d str_type excerpt_validator = Valid (excerpt b)
  /\ field (str "publishDate") d str_type validate_publish_date = Valid (publishDate b).
Proof.
  unfold BookSchema_fields. rewrite no_field_propagates. split.
  - destruct (field (str "id") d _ _); try discriminate.
    destruct (field (str "title") d _ _); try discriminate.
    destruct (field (str "description") d _ _); try discriminate.
    destruct (field (str "pageCount") d _ _); try discriminate.
    destruct (field (str "excerpt") d _ _); try discriminate.
    destruct (field (str "publishDate") d _ _); try discriminate.
    intros [= <-]. repeat split.
  - intros (-> & -> & -> & -> & -> & ->). destruct b; reflexivity.
Qed.

(** When it fails, it raises one validation error. *)
Lemma BookSchema_fields_Raise (d : pydict) (e : exn) :
  BookSchema_fields str_as_int d = Raise e ->
  exists errors, e = ValidationError errors /\ errors <> [].
Proof.
  pose proof (no_field_propagates d) as P. revert P.
  unfold BookSchema_fields.
  destruct (field (str "id") d _ _); [| | discriminate];
  (destruct (field (str "title") d _ _); [| | discriminate]);
  (destruct (field (str "description") d _ _); [| | discriminate]);
  (destruct (field (str "pageCount") d _ _); [| | discriminate]);
  (destruct (field (str "excerpt") d _ _); [| | discriminate]);
  (destruct (field (str "publishDate") d _ _); [| | discriminate]);
  intros ->; try discriminate; intros [= <-]; eexists;
  (split; [reflexivity | cbn; discriminate]).
Qed.

End Facts.
End ObjectModelFacts.

Module ObjectModel.
Import PyStrFacts DatetimeFacts Validators Spec ObjectModelFacts TestDataGenerator.

Section Fields.
Variable str_as_int : pystr -> option Z.

Lemma id_field (d : pydict) (i : Z) :
  field (str "id") d (int_type str_as_int) validate_id = Valid i
  <-> int_field_value str_as_int "id" d = Some i /\ 0 < i.
Proof.
  unfold field, int_field_value, validate_id.
  destruct (dict_get (str "id") d) as [raw|]; [|split; [discriminate | intros [? _]; discriminate]].
  destruct (int_type str_as_int raw) as [z| |];
    [|split; [discriminate | intros [? _]; discriminate]..].
  destruct (z <=? 0) eqn:E; simpl; split.
  - discriminate.
  - intros [[= ->] H]. apply Z.leb_le in E. lia.
  - intros [= ->]. apply Z.leb_gt in E. auto.
  - intros [[= ->] _]. reflexivity.
Qed.

Lemma pageCount_field (d : pydict) (p : Z) :
  field (str "pageCount") d (int_type str_as_int) validate_page_count = Valid p
  <-> int_field_value str_as_int "pageCount" d = Some p /\ 0 < p.
Proof.
  unfold field, int_field_value, validate_page_count.
  destruct (dict_get (str "pageCount") d) as [raw|]; [|split; [discriminate | intros [? _]; discriminate]].
  destruct (int_type str_as_int raw) as [z| |];
    [|split; [discriminate | intros [? _]; discriminate]..].
  destruct (z <=? 0) eqn:E; simpl; split.
  - discriminate.
  - intros [[= ->] H]. apply Z.leb_le in E. lia.
  - intros [= ->]. apply Z.leb_gt in E. auto.
  - intros [[= ->] _]. reflexivity.
Qed.

(** What a [str] field holds, when its value is a [str]. *)
Lemma str_field (name : string) (d : pydict) (U : Type) (validator : pystr -> result U) :
  field (str name) d str_type validator
  = match dict_get (str name) d with
    | None => Invalid (str "Field required")
    | Some raw =>
        match str_field_value name d with
        | Some s => after_validator (validator s)
        | None => Invalid (str "Input should be a valid string")
        end
    end.
Proof.
  unfold field, str_field_value.
  destruct (dict_get (str name) d) as [raw|]; [|reflexivity].
  destruct raw; reflexivity.
Qed.

Lemma str_field_value_get (name : string) (d : pydict) (s : pystr) :
  str_field_value name d = Some s -> dict_get (str name) d = Some (PStr s).
Proof.
  unfold str_field_value. destruct (dict_get (str name) d) as [[]|]; congruence.
Qed.

Lemma title_field (d : pydict) (t' : pystr) :
  field (str "title") d str_type validate_title = Valid t'
  <-> exists t, str_field_value "title" d = Some t /\ strip t <> [] /\ t' = strip t.
Proof.
  rewrite (str_field "title"). unfold validate_title. split.
  - destruct (dict_get (str "title") d); [|discriminate].
    destruct (str_field_value "title" d) as [t|]; [|discriminate].
    destruct (negb (truthy t) || negb (truthy (strip t))) eqn:E; [discriminate|].
    intros [= <-]. exists t. repeat split. now apply not_blank_iff.
  - intros (t & Ht & Hs & ->). rewrite (str_field_value_get _ _ _ Ht), Ht.
    apply not_blank_iff in Hs. rewrite Hs. reflexivity.
Qed.

Lemma description_field (d : pydict) (t' : pystr) :
  field (str "description") d str_type validate_description = Valid t'
  <-> exists t, str_field_value "description" d = Some t /\ strip t <> [] /\ t' = strip t.
Proof.
  rewrite (str_field "description"). unfold validate_description. split.
  - destruct (dict_get (str "description") d); [|discriminate].
    destruct (str_field_value "description" d) as [t|]; [|discriminate].
    destruct (negb (truthy t) || negb (truthy (strip t))) eqn:E; [discriminate|].
    intros [= <-]. exists t. repeat split. now apply not_blank_iff.
  - intros (t & Ht & Hs & ->). rewrite (str_field_value_get _ _ _ Ht), Ht.
    apply not_blank_iff in Hs. rewrite Hs. reflexivity.
Qed.

Lemma excerpt_field (d : pydict) (e : pystr) :
  field (str "excerpt") d str_type excerpt_validator = Valid e
  <-> str_field_value "excerpt" d = Some e.
Proof.
  rewrite (str_field "excerpt"). split.
  - destruct (dict_get (str "excerpt") d); [|discriminate].
    destruct (str_field_value "excerpt" d) as [t|]; [|discriminate].
    cbn. congruence.
  - intro He. rewrite (str_field_value_get _ _ _ He), He. reflexivity.
Qed.

Lemma publishDate_field (d : pydict) (s : pystr) :
  field (str "publishDate") d str_type validate_publish_date = Valid s
  <-> str_field_value "publishDate" d = Some s /\ iso_parseable s.
Proof.
  rewrite (str_field "publishDate"). unfold validate_publish_date, iso_parseable. split.
  - destruct (dict_get (str "publishDate") d); [|discriminate].
    destruct (str_field_value "publishDate" d) as [t|]; [|discriminate].
    destruct (fromisoformat _) eqn:E; [|discriminate].
    intros [= <-]. eauto.
  - intros (Hs & t & Ht). rewrite (str_field_value_get _ _ _ Hs), Hs, Ht. reflexivity.
Qed.

(** The constructor succeeds exactly when the field constraints hold. *)
Lemma BookSchema_fields_constraints (d : pydict) :
  (exists b, BookSchema_fields str_as_int d = Ok b) <-> constraints_hold str_as_int d.
Proof.
  unfold constraints_hold. split.
  - intros [b Hb]. apply BookSchema_fields_Ok in Hb as (H1 & H2 & H3 & H4 & H5 & H6).
    apply id_field in H1. apply title_field in H2 as (t & ? & ? & _).
    apply description_field in H3 as (de & ? & ? & _). apply pageCount_field in H4.
    apply excerpt_field in H5. apply publishDate_field in H6.
    repeat split; eauto.
  - intros ((i & Hi) & (t & Ht & Hts) & (de & Hd & Hds) & (p & Hp) & (e & He)
            & (s & Hs)).
    exists (mkBookSchema i (strip t) (strip de) p e s).
    apply BookSchema_fields_Ok. cbn [id title description pageCount excerpt publishDate].
    repeat split.
    + now apply id_field.
    + apply title_field. eauto.
    + apply description_field. eauto.
    + now apply pageCount_field.
    + now apply excerpt_field.
    + now apply publishDate_field.
Qed.

(** The check returns the empty list exactly when the constructor
    succeeds, and one message when it raises. *)
Lemma validate_book_data_cases (v : pyval) :
  (exists b, BookSchema_call str_as_int v = Ok b
             /\ validate_book_data str_as_int v = Ok [])
  \/ (exists e, BookSchema_call str_as_int v = Raise e
                /\ validate_book_data str_as_int v = Ok [str_exn e]).
Proof.
  unfold validate_book_data, try_except, bind.
  destruct (BookSchema_call str_as_int v) as [b|e]; [left | right]; eauto.
Qed.

End Fields.

(** C1.  Every payload [generate_book_data()] returns when no id is
    supplied passes the object-model check: [validate_book_data] returns
    the empty list.  (The id drawn from 1000..9999 and the page count
    drawn from 50..1000 are positive, the catch phrase and the generated
    text are not blank, and the date written as [%Y-%m-%d] parses.) *)
Theorem generated_book_passes_object_model
  (G : Type) (src : Sources G) (str_as_int : pystr -> option Z) (g : G) :
  lawful src ->
  validate_book_data str_as_int (fst (generate_book_data src None g)) = Ok [].
Proof.
  intros [Lr Lc Lt Ld Ln].
  unfold generate_book_data, gbind, gret. cbn [fst].
  set (g1 := snd (randint src 1000 9999 g)).
  set (g2 := snd (catch_phrase src g1)).
  set (g3 := snd (text src 200 g2)).
  set (g4 := snd (randint src 50 1000 g3)).
  set (g5 := snd (text src 500 g4)).
  pose proof (Lr 1000 9999 g ltac:(lia)) as Hid.
  pose proof (Lc g1) as Ht.
  pose proof (Lt 200 g2 ltac:(lia)) as Hd.
  pose proof (Lr 50 1000 g3 ltac:(lia)) as Hp.
  pose proof (Ld g5) as Hpd.
  set (d := [ _ ; _ ; _ ; _ ; _ ; _ ]).
  assert (C : constraints_hold str_as_int d).
  { unfold constraints_hold, int_field_value, str_field_value. subst d.
    repeat split.
    - eexists. split; [reflexivity | lia].
    - eexists. split; [reflexivity | now apply truthy_nonempty].
    - eexists. split; [reflexivity | now apply truthy_nonempty].
    - eexists. split; [reflexivity | lia].
    - eexists. reflexivity.
    - eexists. split; [reflexivity|]. unfold iso_parseable.
      rewrite (replace_Z_strftime _ Hpd), (fromisoformat_strftime _ Hpd). eauto. }
  apply BookSchema_fields_constraints in C as [b Hb].
  unfold validate_book_data, BookSchema_call. rewrite Hb. reflexivity.
Qed.

(** The deterministic sources are lawful, and the theorem applies. *)
Lemma generated_book_passes_object_model_witness :
  validate_book_data Sample.digits_only
    (fst (generate_book_data Sample.sources None O)) = Ok [].
Proof.
  apply (generated_book_passes_object_model nat Sample.sources Sample.digits_only O).
  constructor; intros; cbn; first [lia | reflexivity].
Defined.

End ObjectModel.

(** ** The structural check *)

Module StructuralFacts.
Import PyStrFacts Validators Spec.

Lemma dict_has_keys (k : pystr) (d : pydict) :
  dict_has k d = true <-> In k (dict_keys d).
Proof.
  unfold dict_has, dict_keys. induction d as [|[k' v] d IH]; simpl.
  - split; [discriminate | contradiction].
  - destruct (PyStr.eqb k k') eqn:E.
    + apply eqb_eq in E. subst. split; auto.
    + apply eqb_neq in E. rewrite IH. split; [auto | intros [H|H]; congruence].
Qed.

Lemma existsb_eqb (k : pystr) (l : list pystr) :
  existsb (PyStr.eqb k) l = true <-> In k l.
Proof.
  rewrite existsb_exists. split.
  - intros (x & Hx & E). apply eqb_eq in E. now subst.
  - intro H. exists k. split; [assumption | apply eqb_refl].
Qed.

(** The exact value of a float that is an integer. *)
Lemma float_num_integer (f : spec_float) (z : Z) :
  float_to_Z f = Some z -> exists den, 0 < den /\ float_num f = NumQ (z * den) den.
Proof.
  destruct f as [s|s| |s m e]; simpl; try discriminate.
  - intros [= <-]. exists 1. split; [lia | reflexivity].
  - destruct (0 <=? e) eqn:E.
    + intros [= <-]. exists 1. split; [lia|]. f_equal. lia.
    + apply Z.leb_gt in E.
      destruct (Z.pos m mod 2 ^ (- e) =? 0) eqn:D; [|discriminate].
      intros [= <-]. apply Z.eqb_eq in D.
      assert (P : 0 < 2 ^ (- e)) by (apply Z.pow_pos_nonneg; lia).
      exists (2 ^ (- e)). split; [assumption|]. f_equal.
      pose proof (Z.div_mod (Z.pos m) (2 ^ (- e)) ltac:(lia)) as Q.
      rewrite D in Q. destruct s; unfold signed; nia.
Qed.

Lemma integer_schema_unfold (x : pyval) :
  iter_errors (integer_schema (Some 1)) x
  = kw_type (Some TInteger) x ++ kw_minimum (Some 1) x.
Proof.
  unfold integer_schema. cbn [iter_errors].
  destruct x; cbn [kw_required kw_additionalProperties kw_minItems kw_minLength app];
    rewrite ?app_nil_r; reflexivity.
Qed.

Lemma integer_schema_errors (x : pyval) :
  iter_errors (integer_schema (Some 1)) x = [] <-> integer_ge_1 x.
Proof.
  rewrite integer_schema_unfold. unfold integer_ge_1, kw_type, kw_minimum, is_type, num_of.
  destruct x as [|b|z|f|s|l|d];
    try (split; [discriminate | intros (z' & [H | (f' & H & _)] & _); discriminate H]).
  - (* int *)
    unfold num_ltb. cbn [app].
    destruct (z * 1 <? 1 * 1) eqn:E.
    + split; [discriminate|].
      intros (z' & [[= <-] | (f' & H & _)] & Hz); [|discriminate].
      apply Z.ltb_lt in E. lia.
    + split; [|reflexivity]. intros _. exists z. split; [auto|].
      apply Z.ltb_ge in E. lia.
  - (* float *)
    destruct (float_to_Z f) as [z|] eqn:F.
    + destruct (float_num_integer f z F) as (den & Hden & ->).
      unfold num_ltb. cbn [app].
      destruct (z * den * 1 <? 1 * den) eqn:E.
      * split; [discriminate|].
        intros (z' & [H | (f' & [= <-] & H)] & Hz); [discriminate|].
        rewrite F in H. injection H as <-. apply Z.ltb_lt in E. nia.
      * split; [|reflexivity]. intros _. exists z. split; [right; eauto|].
        apply Z.ltb_ge in E. nia.
    + split; [discriminate|].
      intros (z' & [H | (f' & [= <-] & H)] & Hz); [discriminate | congruence].
Qed.

Lemma nonempty_string_schema_errors (x : pyval) :
  iter_errors (string_schema (Some 1) None) x = [] <-> nonempty_string x.
Proof.
  unfold nonempty_string.
  destruct x as [|b|z|f|s|l|d]; cbn;
    try (split; [discriminate | intros (s' & H & _); discriminate H]).
  destruct s as [|c s]; cbn.
  - split; [discriminate | intros (s' & [= <-] & H); congruence].
  - replace (Z.pos (Pos.of_succ_nat (List.length s)) <? 1) with false
      by (symmetry; apply Z.ltb_ge; lia).
    split; [|reflexivity]. intros _. eexists. split; [reflexivity | discriminate].
Qed.

Lemma string_schema_errors (fmt : option pystr) (x : pyval) :
  iter_errors (string_schema None fmt) x = [] <-> is_string x.
Proof.
  unfold is_string.
  destruct x as [|b|z|f|s|l|d]; cbn;
    try (split; [discriminate | intros (s' & H); discriminate H]).
  split; [eauto | reflexivity].
Qed.

(** The errors of [BOOK_SCHEMA] on an object, keyword by keyword. *)
Lemma book_schema_errors (d : pydict) :
  iter_errors BOOK_SCHEMA (PDict d)
  = (property_errors "id" (integer_schema (Some 1)) d
     ++ property_errors "title" (string_schema (Some 1) None) d
     ++ property_errors "description" (string_schema (Some 1) None) d
     ++ property_errors "pageCount" (integer_schema (Some 1)) d
     ++ property_errors "excerpt" (string_schema None None) d
     ++ property_errors "publishDate" (string_schema None (Some (str "date-time"))) d
     ++ [])
    ++ kw_required book_keys (PDict d)
    ++ kw_additionalProperties false book_keys (PDict d).
Proof.
  unfold BOOK_SCHEMA. cbn [iter_errors kw_type is_type app].
  unfold property_errors, book_keys. cbn [map fst kw_minItems kw_minimum kw_minLength].
  rewrite !app_nil_r. reflexivity.
Qed.

Lemma kw_required_ok (req : list pystr) (d : pydict) :
  kw_required req (PDict d) = [] <-> forall r, In r req -> dict_has r d = true.
Proof.
  unfold kw_required. induction req as [|r req IH]; cbn [flat_map].
  - split; [contradiction | reflexivity].
  - destruct (dict_has r d) eqn:E; cbn [app].
    + rewrite IH. split; [intros H r' [<-|Hr]; auto | intros H r' Hr; apply H; now right].
    + split; [discriminate|]. intro H. rewrite (H r (or_introl eq_refl)) in E. discriminate.
Qed.

Lemma kw_additionalProperties_ok (props : list pystr) (d : pydict) :
  kw_additionalProperties false props (PDict d) = []
  <-> forall k, dict_has k d = true -> In k props.
Proof.
  unfold kw_additionalProperties.
  destruct (forallb _ (dict_keys d)) eqn:E.
  - split; [|reflexivity]. intros _ k Hk.
    rewrite forallb_forall in E. apply existsb_eqb, E. now apply dict_has_keys.
  - split; [discriminate|]. intro H.
    assert (C : forallb (fun k => existsb (PyStr.eqb k) props) (dict_keys d) = true).
    { apply forallb_forall. intros k Hk. apply existsb_eqb, H. now apply dict_has_keys. }
    congruence.
Qed.

Lemma property_errors_has (name : string) (sub : schema) (P : pyval -> Prop) (d : pydict) :
  (forall x, iter_errors sub x = [] <-> P x) ->
  dict_has (str name) d = true ->
  (property_errors name sub d = [] <-> has name P d).
Proof.
  intros HP Hk. unfold property_errors, has, dict_has in *.
  destruct (dict_get (str name) d) as [x|]; [|discriminate].
  rewrite HP. split; [eauto | intros (y & [= <-] & Hy); exact Hy].
Qed.

Lemma has_key (name : string) (P : pyval -> Prop) (d : pydict) :
  has name P d -> dict_has (str name) d = true.
Proof. intros (x & Hx & _). unfold dict_has. now rewrite Hx. Qed.

(** [BOOK_SCHEMA] has no error on a value exactly when it conforms. *)
Lemma book_schema_conforms (v : pyval) :
  iter_errors BOOK_SCHEMA v = [] <-> conforms v.
Proof.
  unfold conforms. destruct v as [|b|z|f|s|l|d];
    try (split; [discriminate | intros (d' & H & _); discriminate H]).
  rewrite book_schema_errors. split.
  - intro H. apply app_eq_nil in H as [Hp H]. apply app_eq_nil in H as [Hr Ha].
    rewrite kw_required_ok in Hr. rewrite kw_additionalProperties_ok in Ha.
    repeat (apply app_eq_nil in Hp as [? Hp]).
    exists d. split; [reflexivity|]. split; [split; auto|].
    repeat split.
    + eapply property_errors_has; eauto using integer_schema_errors.
      apply Hr. cbn. auto.
    + eapply property_errors_has; eauto using nonempty_string_schema_errors.
      apply Hr. cbn. auto.
    + eapply property_errors_has; eauto using nonempty_string_schema_errors.
      apply Hr. cbn. auto 6.
    + eapply property_errors_has; eauto using integer_schema_errors.
      apply Hr. cbn. auto 6.
    + eapply property_errors_has; eauto using string_schema_errors.
      apply Hr. cbn. auto 7.
    + eapply property_errors_has; eauto using string_schema_errors.
      apply Hr. cbn. auto 8.
  - intros (d' & [= <-] & Hk & H1 & H2 & H3 & H4 & H5 & H6).
    assert (R : kw_required book_keys (PDict d) = []).
    { apply kw_required_ok. intros r Hr. now apply Hk. }
    assert (A : kw_additionalProperties false book_keys (PDict d) = []).
    { apply kw_additionalProperties_ok. intros k Hd. now apply Hk. }
    rewrite R, A.
    rewrite (proj2 (property_errors_has "id" _ _ d integer_schema_errors (has_key _ _ _ H1)) H1).
    rewrite (proj2 (property_errors_has "title" _ _ d nonempty_string_schema_errors (has_key _ _ _ H2)) H2).
    rewrite (proj2 (property_errors_has "description" _ _ d nonempty_string_schema_errors (has_key _ _ _ H3)) H3).
    rewrite (proj2 (property_errors_has "pageCount" _ _ d integer_schema_errors (has_key _ _ _ H4)) H4).
    rewrite (proj2 (property_errors_has "excerpt" _ _ d (string_schema_errors None) (has_key _ _ _ H5)) H5).
    rewrite (proj2 (property_errors_has "publishDate" _ _ d (string_schema_errors _) (has_key _ _ _ H6)) H6).
    reflexivity.
Qed.

Lemma flat_map_nil {A B} (f : A -> list B) (l : list A) :
  flat_map f l = [] <-> Forall (fun x => f x = []) l.
Proof.
  induction l as [|x l IH]; cbn [flat_map].
  - split; auto.
  - split.
    + intro H. apply app_eq_nil in H as [Hx Hl]. constructor; [assumption | now apply IH].
    + intro H. inversion H as [|? ? Hx Hl]; subst. rewrite Hx. now apply IH.
Qed.

(** [BOOKS_LIST_SCHEMA] has no error exactly on the arrays whose every
    element conforms. *)
Lemma books_list_schema_conforms (v : pyval) :
  iter_errors BOOKS_LIST_SCHEMA v = [] <-> exists l, v = PList l /\ Forall conforms l.
Proof.
  destruct v as [|b|z|f|s|l|d];
    try (split; [discriminate | intros (l' & H & _); discriminate H]).
  unfold BOOKS_LIST_SCHEMA.
  cbn [iter_errors kw_type is_type kw_required kw_additionalProperties kw_minItems
       kw_minimum kw_minLength app].
  replace (Z.of_nat (List.length l) <? 0) with false by (symmetry; apply Z.ltb_ge; lia).
  rewrite !app_nil_r, flat_map_nil. split.
  - intro H. exists l. split; [reflexivity|].
    eapply Forall_impl; [|exact H]. intros x. apply book_schema_conforms.
  - intros (l' & [= <-] & H). eapply Forall_impl; [|exact H].
    intros x. apply book_schema_conforms.
Qed.

(** Both schemas are well formed: [validate] never raises [SchemaError]. *)
Lemma validate_book_response_eq (v : pyval) :
  validate_book_response v
  = Ok (match iter_errors BOOK_SCHEMA v with [] => true | _ => false end).
Proof.
  unfold validate_book_response, JsonSchema.validate.
  change (check_schema BOOK_SCHEMA) with true. cbn [negb].
  destruct (iter_errors BOOK_SCHEMA v); reflexivity.
Qed.

Lemma validate_books_list_response_eq (v : pyval) :
  validate_books_list_response v
  = Ok (match iter_errors BOOKS_LIST_SCHEMA v with [] => true | _ => false end).
Proof.
  unfold validate_books_list_response, JsonSchema.validate.
  change (check_schema BOOKS_LIST_SCHEMA) with true. cbn [negb].
  destruct (iter_errors BOOKS_LIST_SCHEMA v); reflexivity.
Qed.

Lemma lacks_excerpt_not_conforms (v : pyval) : lacks_excerpt v -> ~ conforms v.
Proof.
  intros L (d & -> & _ & _ & _ & _ & _ & H & _).
  apply has_key in H. rewrite (L d eq_refl) in H. discriminate.
Qed.

End StructuralFacts.

Module Structural.
Import PyStrFacts Validators Spec StructuralFacts.

(** C2.  The structural schema check returns true for a body exactly
    when it conforms to the fixed schema.  A single object conforms when
    it has precisely the keys id, title, description, pageCount, excerpt
    and publishDate, id and pageCount being integers >= 1, title and
    description non-empty strings, excerpt and publishDate strings; an
    array is accepted exactly when every element conforms.  In
    particular an array with an element that lacks the key excerpt is
    rejected: [validate_books_list_response] returns false. *)
Theorem structural_check_characterised (v : pyval) (l : list pyval) :
  (validate_book_response v = Ok true <-> conforms v)
  /\ (validate_book_response v = Ok false <-> ~ conforms v)
  /\ (validate_books_list_response v = Ok true
      <-> exists items, v = PList items /\ Forall conforms items)
  /\ (Exists lacks_excerpt l -> validate_books_list_response (PList l) = Ok false).
Proof.
  rewrite validate_book_response_eq, validate_books_list_response_eq.
  repeat split.
  - intro H. apply book_schema_conforms.
    destruct (iter_errors BOOK_SCHEMA v); [reflexivity | discriminate].
  - intro H. apply book_schema_conforms in H. now rewrite H.
  - intros H C. apply book_schema_conforms in C. rewrite C in H. discriminate.
  - intro H. destruct (iter_errors BOOK_SCHEMA v) eqn:E; [|reflexivity].
    apply book_schema_conforms in E. contradiction.
  - intro H. apply books_list_schema_conforms.
    destruct (iter_errors BOOKS_LIST_SCHEMA v); [reflexivity | discriminate].
  - intro H. apply books_list_schema_conforms in H. now rewrite H.
  - intro H. rewrite validate_books_list_response_eq.
    destruct (iter_errors BOOKS_LIST_SCHEMA (PList l)) eqn:E; [|reflexivity].
    apply books_list_schema_conforms in E as (items & [= <-] & F).
    apply Exists_exists in H as (x & Hx & Lx).
    rewrite Forall_forall in F. destruct (lacks_excerpt_not_conforms x Lx (F x Hx)).
Qed.

(** The scenario of the specification: a conforming book next to one
    without its excerpt. *)
Lemma structural_check_characterised_witness :
  validate_books_list_response
    (PList [Sample.good_book; Sample.book_without_excerpt]) = Ok false.
Proof.
  apply (structural_check_characterised PNone
           [Sample.good_book; Sample.book_without_excerpt]).
  apply Exists_cons_tl, Exists_cons_hd.
  intros d [= <-]. reflexivity.
Defined.

End Structural.

(** ** The checks return and never raise *)

Module Checks.
Import PyStrFacts Validators Spec ObjectModelFacts ObjectModel StructuralFacts.


(** C9.  The list [validate_book_data] returns has at most one element:
    on a failure it holds exactly one message, the string form of the
    one exception caught, also when several fields violate their
    constraints at once (as in the sample payload, where three do). *)
Theorem validate_book_data_at_most_one_message
  (str_as_int : pystr -> option Z) (v : pyval) :
  (exists messages,
      validate_book_data str_as_int v = Ok messages
      /\ (List.length messages <= 1)%nat
      /\ (messages <> [] ->
          exists e, BookSchema_call str_as_int v = Raise e /\ messages = [str_exn e]))
  /\ (exists errors,
         BookSchema_call str_as_int Sample.bad_book = Raise (ValidationError errors)
         /\ List.length errors = 3%nat
         /\ validate_book_data str_as_int Sample.bad_book
            = Ok [str_exn (ValidationError errors)]).
Proof.
  split.
  - destruct (validate_book_data_cases str_as_int v) as [(b & Hb & H) | (e & He & H)];
      rewrite H; eexists; (split; [reflexivity|]); split; cbn; try lia.
    + congruence.
    + eauto.
  - eexists. split; [reflexivity|]. split; reflexivity.
Qed.

End Checks.

(** ** Content equality *)

Module ContentFacts.
Import PyStrFacts Validators Spec.

(** The first piece of [split('T')] is the text before the first [T]. *)
Lemma split_hd_before_T (s : pystr) : hd [] (split 84 s) = before_T s.
Proof.
  induction s as [|c s IH]; [reflexivity|]. cbn [split before_T].
  destruct (chr_eqb c 84); [reflexivity|].
  destruct (split 84 s) as [|piece rest]; cbn [hd] in *; now rewrite <- IH.
Qed.

(** A text without [T] is its own date-only portion. *)
Lemma before_T_no_T (s : pystr) : contains_chr 84 s = false -> before_T s = s.
Proof.
  unfold contains_chr. induction s as [|c s IH]; [reflexivity|].
  cbn [existsb before_T]. intro H. apply orb_false_iff in H as [Hc Hs].
  unfold chr_eqb in *. rewrite N.eqb_sym in Hc. rewrite Hc. now rewrite IH.
Qed.

Lemma date_only_str (s : pystr) : date_only (PStr s) = Ok (PStr (before_T s)).
Proof.
  unfold date_only, contains_T, bind.
  destruct (contains_chr 84 s) eqn:E.
  - now rewrite split_hd_before_T.
  - now rewrite before_T_no_T.
Qed.

Lemma py_assert_ok (c : bool) (m : pystr) : py_assert c m = Ok tt <-> c = true.
Proof. destruct c; cbn; split; congruence. Qed.

Lemma py_eq_str (a b : pystr) : py_eq (PStr a) (PStr b) = true <-> a = b.
Proof. cbn. apply eqb_eq. Qed.

Lemma py_eq_int (a b : Z) : py_eq (PInt a) (PInt b) = true <-> a = b.
Proof. cbn. rewrite Z.eqb_eq. lia. Qed.

(** The loop succeeds exactly when every field that both payloads have
    passes its comparison. *)
Lemma assert_items_ok (book : pydict) (items : list (pystr * pyval)) :
  assert_items book items = Ok tt
  <-> forall f ev av, In (f, ev) items -> dict_get f book = Some av ->
                      assert_field f av ev = Ok tt.
Proof.
  induction items as [|[f ev] items IH]; cbn [assert_items].
  - split; [intros _ ? ? ? [] | reflexivity].
  - split.
    + intros H f' ev' av' [[= <- <-] | Hin] Hget.
      * rewrite Hget in H. destruct (assert_field f av' ev) as [[]|]; [reflexivity | discriminate].
      * destruct (match dict_get f book with Some _ => _ | None => _ end) as [[]|];
          [|discriminate]. cbn [bind] in H. exact (proj1 IH H f' ev' av' Hin Hget).
    + intro H.
      assert (H0 : match dict_get f book with
                   | Some actual_value => assert_field f actual_value ev
                   | None => Ok tt
                   end = Ok tt).
      { destruct (dict_get f book) as [av|] eqn:G; [|reflexivity].
        apply (H f ev av); [now left | exact G]. }
      rewrite H0. cbn [bind]. apply IH. intros f' ev' av' Hin. apply H. now right.
Qed.

End ContentFacts.

Module Content.
Import PyStrFacts Validators Spec ContentFacts.

(** C6.  [assert_book_content] compares publishDate by truncating both
    the expected and the actual text to the date-only portion (the text
    before any T) and testing those for equality; expected "2023-01-01"
    against actual "2023-01-01T00:00:00.000Z" succeeds.  Every other
    field is compared by equality of the two values ([==]), which for
    texts and integers is identity.  The assertion as a whole succeeds
    exactly when each field present in both payloads passes. *)
Theorem assert_book_content_date_only (book expected : pydict) :
  (forall actual_date expected_date : pystr,
      assert_field (str "publishDate") (PStr actual_date) (PStr expected_date) = Ok tt
      <-> before_T actual_date = before_T expected_date)
  /\ (forall f actual_value expected_value,
         f <> str "publishDate" ->
         (assert_field f actual_value expected_value = Ok tt
          <-> py_eq actual_value expected_value = true))
  /\ (forall a b : pystr, py_eq (PStr a) (PStr b) = true <-> a = b)
  /\ (forall a b : Z, py_eq (PInt a) (PInt b) = true <-> a = b)
  /\ (assert_book_content book expected = Ok tt
      <-> forall f expected_value actual_value,
            In (f, expected_value) expected ->
            dict_get f book = Some actual_value ->
            assert_field f actual_value expected_value = Ok tt)
  /\ assert_book_content
       [(str "publishDate", PStr (str "2023-01-01T00:00:00.000Z"))]
       [(str "publishDate", PStr (str "2023-01-01"))] = Ok tt.
Proof.
  split; [|split; [|split; [|split; [|split]]]].
  - intros a e. unfold assert_field. rewrite eqb_refl, !date_only_str. cbn [bind].
    rewrite py_assert_ok. apply py_eq_str.
  - intros f av ev Hf. unfold assert_field.
    apply eqb_neq in Hf. rewrite Hf. apply py_assert_ok.
  - apply py_eq_str.
  - apply py_eq_int.
  - apply assert_items_ok.
  - reflexivity.
Qed.

(** A field other than the date is compared as it is: the same book
    with another title fails, with the same title passes. *)
Lemma assert_book_content_date_only_witness :
  assert_field (str "title") (PStr (str "T")) (PStr (str "T")) = Ok tt
  <-> py_eq (PStr (str "T")) (PStr (str "T")) = true.
Proof.
  apply (assert_book_content_date_only [] []). discriminate.
Defined.

(** C10.  [assert_book_content] skips a field of the expected payload
    that the actual payload does not have: on an actual dictionary with
    none of the expected keys (the empty one, say) the assertion
    succeeds for every expected dictionary. *)
Theorem assert_book_content_skips_missing (book expected : pydict) :
  (forall f, In f (dict_keys expected) -> dict_has f book = false) ->
  assert_book_content book expected = Ok tt.
Proof.
  intro H. apply assert_items_ok. intros f ev av Hin Hget.
  assert (Hf : dict_has f book = false).
  { apply H. unfold dict_keys. change f with (fst (f, ev)). now apply in_map. }
  unfold dict_has in Hf. rewrite Hget in Hf. discriminate.
Qed.

Lemma assert_book_content_skips_missing_witness :
  assert_book_content []
    [(str "id", PInt 1000); (str "title", PStr (str "T"));
     (str "publishDate", PInt 5)] = Ok tt.
Proof.
  apply assert_book_content_skips_missing. intros f _. reflexivity.
Defined.

End Content.

(** ** Configuration *)

Module ConfigFacts.
Import PyStrFacts Spec Config.

Lemma startswith_prefix (p s : pystr) :
  startswith p s = true <-> exists rest, s = p ++ rest.
Proof.
  revert s. induction p as [|c p IH]; intro s; cbn [startswith].
  - split; [intros _; now exists s | reflexivity].
  - destruct s as [|c' s].
    + split; [discriminate | intros (rest & H); discriminate H].
    + rewrite andb_true_iff, IH. unfold chr_eqb. rewrite N.eqb_eq. split.
      * intros (-> & rest & ->). now exists rest.
      * intros (rest & [= -> ->]). split; [reflexivity | now exists rest].
Qed.

Lemma has_scheme_startswith (url : pystr) :
  startswith (str "http://") url || startswith (str "https://") url = true
  <-> has_scheme url.
Proof. unfold has_scheme. now rewrite orb_true_iff, !startswith_prefix. Qed.

Lemma log_level_known (lvl : pystr) :
  existsb (PyStr.eqb lvl) valid_log_levels = true <-> In lvl valid_log_levels.
Proof.
  rewrite existsb_exists. split.
  - intros (x & Hx & E). apply eqb_eq in E. now subst.
  - intro H. exists lvl. split; [assumption | apply eqb_refl].
Qed.

End ConfigFacts.

Module ConfigClaims.
Import PyStrFacts Spec Config ConfigFacts.

(** C8.  [validate_config] returns false exactly when the base URL does
    not start with http:// or https://, or API_TIMEOUT <= 0, or
    TEST_TIMEOUT <= 0, or MAX_RETRIES < 0, or RETRY_DELAY < 0, or
    LOG_LEVEL is not one of DEBUG, INFO, WARNING, ERROR, CRITICAL;
    otherwise it returns true; it never raises. *)
Theorem validate_config_refuses_exactly (cls : Config) :
  (snd (validate_config cls) = Ok false <-> config_refused cls)
  /\ (snd (validate_config cls) = Ok true <-> ~ config_refused cls)
  /\ (exists b, snd (validate_config cls) = Ok b).
Proof.
  unfold validate_config, validate_config_body, config_refused.
  pose proof (has_scheme_startswith (API_BASE_URL cls)) as Hs.
  pose proof (log_level_known (LOG_LEVEL cls)) as Hl.
  destruct (startswith (str "http://") (API_BASE_URL cls)
            || startswith (str "https://") (API_BASE_URL cls)) eqn:Es; cbn [negb].
  2:{ assert (N : ~ has_scheme (API_BASE_URL cls))
        by (intro H; apply Hs in H; discriminate).
      cbn [snd]. split; [tauto | split; [|eauto]]. split; [discriminate | tauto]. }
  assert (S : has_scheme (API_BASE_URL cls)) by now apply Hs.
  destruct (API_TIMEOUT cls <=? 0) eqn:E1; cbn [orb].
  { apply Z.leb_le in E1. cbn [snd].
    split; [tauto | split; [|eauto]]. split; [discriminate | tauto]. }
  apply Z.leb_gt in E1.
  destruct (TEST_TIMEOUT cls <=? 0) eqn:E2.
  { apply Z.leb_le in E2. cbn [snd].
    split; [tauto | split; [|eauto]]. split; [discriminate | tauto]. }
  apply Z.leb_gt in E2.
  destruct (MAX_RETRIES cls <? 0) eqn:E3; cbn [orb].
  { apply Z.ltb_lt in E3. cbn [snd].
    split; [tauto | split; [|eauto]]. split; [discriminate | tauto]. }
  apply Z.ltb_ge in E3.
  destruct (RETRY_DELAY cls <? 0) eqn:E4.
  { apply Z.ltb_lt in E4. cbn [snd].
    split; [tauto | split; [|eauto]]. split; [discriminate | tauto]. }
  apply Z.ltb_ge in E4.
  destruct (existsb (PyStr.eqb (LOG_LEVEL cls)) valid_log_levels) eqn:E5; cbn [negb snd].
  - assert (L : In (LOG_LEVEL cls) valid_log_levels) by now apply Hl.
    split; [|split; [|eauto]].
    + split; [discriminate|]. intros [H|[H|[H|[H|[H|H]]]]]; try lia; contradiction.
    + split; [|reflexivity]. intros _ [H|[H|[H|[H|[H|H]]]]]; try lia; contradiction.
  - assert (L : ~ In (LOG_LEVEL cls) valid_log_levels)
      by (intro H; apply Hl in H; discriminate).
    split; [tauto | split; [|eauto]]. split; [discriminate | tauto].
Qed.

End ConfigClaims.

(** ** The HTTP client *)

Module ClientClaims.
Import ApiClient.

(** C4.  In [_make_request] a network-level failure of the session
    (timeout, connection error, any other request exception) is logged
    at error level and then raised to the caller unchanged, while every
    response the session returns, those with a 4xx or 5xx status
    included, is returned as a value and never turned into an
    exception. *)
Theorem make_request_raises_only_transport_failures
  (session : pystr -> pystr -> result Response) (method url : pystr) :
  (forall e, session method url = Raise e -> is_RequestException e = true ->
             snd (_make_request session method url) = Raise e
             /\ exists message, In (ERROR, message) (fst (_make_request session method url)))
  /\ (forall response, session method url = Ok response ->
                       snd (_make_request session method url) = Ok response)
  /\ (forall e, snd (_make_request session method url) = Raise e ->
                session method url = Raise e).
Proof.
  unfold _make_request. split; [|split].
  - intros e -> He.
    destruct e; try discriminate He; cbn; (split; [reflexivity|]);
      eexists; right; left; reflexivity.
  - intros response ->. reflexivity.
  - intros e. destruct (session method url) as [r|e']; [discriminate|].
    destruct (is_Timeout e'), (is_ConnectionError e'), (is_RequestException e');
      cbn; congruence.
Qed.

(** A request for a book that does not exist: the 404 comes back as a
    value. *)
Lemma make_request_raises_only_transport_failures_witness :
  snd (_make_request
         (fun _ _ => Ok (mkResponse 404 [] (str "Not Found")))
         (str "GET") (str "https://fakerestapi.azurewebsites.net/api/v1/Books/99999"))
  = Ok (mkResponse 404 [] (str "Not Found")).
Proof.
  apply (make_request_raises_only_transport_failures
           (fun _ _ => Ok (mkResponse 404 [] (str "Not Found")))).
  reflexivity.
Defined.

End ClientClaims.

(** ** Fixtures on disk *)

Module FixtureFacts.
Import PyStrFacts TestDataGenerator.

Section Facts.
Context {G : Type}.
Variable src : Sources G.
Variable cfg : Config.Config.

Lemma generate_books_length (n : nat) : forall g,
  List.length (fst (generate_books src n g)) = n.
Proof.
  induction n as [|n IH]; intro g; [reflexivity|].
  cbn [generate_books]. unfold gbind at 1 2. cbn [gret fst List.length].
  now rewrite IH.
Qed.

Lemma generate_edge_case_data_length (g : G) :
  List.length (fst (generate_edge_case_data src g)) = 6%nat.
Proof. reflexivity. Qed.

Lemma counts_bundle (valid invalid edge : list pyval) :
  counts (bundle valid invalid edge)
  = (Some (List.length valid), Some (List.length invalid), Some (List.length edge)).
Proof. reflexivity. Qed.

(** The bundle [save_test_data_to_file] builds, and the state of the
    sources after building it. *)
Lemma save_builds (filename : pystr) (g : G) (d : fs) :
  exists b g',
    save_test_data_to_file src cfg filename (g, d)
    = (fst (write_json (filepath cfg filename) b d),
       (g', snd (write_json (filepath cfg filename) b d)))
    /\ counts b = (Some 5%nat, Some 3%nat, Some 6%nat).
Proof.
  unfold save_test_data_to_file, mbind, lift. cbn [fst snd].
  eexists. eexists. split; [reflexivity|].
  unfold gbind, gret. cbn [fst snd]. rewrite counts_bundle.
  unfold generate_multiple_books.
  now rewrite generate_books_length, generate_edge_case_data_length.
Qed.

(** The fallback bundle: three valid books, two invalid ones, the first
    two edge cases. *)
Lemma fallback_counts (g : G) :
  counts (fst (_generate_fallback_data src g)) = (Some 3%nat, Some 2%nat, Some 2%nat).
Proof.
  unfold _generate_fallback_data, gbind, gret. cbn [fst snd]. rewrite counts_bundle.
  unfold generate_multiple_books. rewrite generate_books_length. reflexivity.
Qed.

Lemma lookup_head (path : pystr) (f : file) (l : list (pystr * file)) :
  lookup path ((path, f) :: l) = Some f.
Proof. cbn [lookup]. now rewrite eqb_refl. Qed.

(** What [load_test_data_from_file] does, by the state of the file. *)
Lemma load_cases (filename : pystr) (g : G) (d : fs) :
  let path := filepath cfg filename in
  exists b w',
    load_test_data_from_file src cfg filename (g, d) = (Ok b, w')
    /\ match lookup path (files d) with
       | Some f =>
           match (if readable f then data f else Garbled) with
           | Document v => b = v /\ w' = (g, d)
           | Garbled =>
               counts b = (Some 3%nat, Some 2%nat, Some 2%nat) /\ snd w' = d
           end
       | None =>
           if writable d then
             counts b = (Some 5%nat, Some 3%nat, Some 6%nat)
             /\ lookup path (files (snd w')) = Some (mkfile (Document b) true)
           else
             counts b = (Some 3%nat, Some 2%nat, Some 2%nat) /\ snd w' = d
       end.
Proof.
  intro path. unfold load_test_data_from_file, mtry, exists_. cbn [snd].
  fold path.
  destruct (lookup path (files d)) as [f|] eqn:L.
  - unfold load_json, read_json. cbn [snd]. rewrite L.
    destruct (readable f); cbn [negb].
    + destruct (data f) as [v|].
      * eauto.
      * cbn [is_Exception]. unfold lift. cbn [fst snd].
        eexists. eexists. split; [reflexivity|]. split; [apply fallback_counts | reflexivity].
    + cbn [is_Exception]. unfold lift. cbn [fst snd].
      eexists. eexists. split; [reflexivity|]. split; [apply fallback_counts | reflexivity].
  - unfold mbind.
    destruct (save_builds filename g d) as (b & g' & -> & Hb). fold path.
    unfold write_json. rewrite L.
    destruct (writable d); cbn [fst snd].
    + unfold load_json, read_json. cbn [fst snd files]. rewrite lookup_head.
      cbn [readable negb data]. exists b. eexists. split; [reflexivity|].
      cbn [snd files]. rewrite lookup_head. auto.
    + cbn [is_Exception]. unfold lift. cbn [fst snd].
      eexists. eexists. split; [reflexivity|]. split; [apply fallback_counts | reflexivity].
Qed.

End Facts.
End FixtureFacts.

Module Fixtures.
Import PyStrFacts TestDataGenerator FixtureFacts.

(** C7.  Round trip: [save_test_data_to_file] followed by
    [load_test_data_from_file] on the same filename yields the persisted
    bundle, whose valid_books, invalid_books and edge_cases have 5, 3
    and 6 entries.  (The directory can be written, and the file, when it
    is already there, can be read.) *)
Theorem save_then_load_round_trip
  (G : Type) (src : Sources G) (cfg : Config.Config) (filename : pystr)
  (g : G) (d : fs) :
  writable d = true ->
  (forall f, lookup (filepath cfg filename) (files d) = Some f -> readable f = true) ->
  exists persisted w1,
    save_test_data_to_file src cfg filename (g, d) = (Ok tt, w1)
    /\ lookup (filepath cfg filename) (files (snd w1))
       = Some (mkfile (Document persisted) true)
    /\ counts persisted = (Some 5%nat, Some 3%nat, Some 6%nat)
    /\ exists loaded w2,
         load_test_data_from_file src cfg filename w1 = (Ok loaded, w2)
         /\ counts loaded = counts persisted.
Proof.
  intros W R.
  destruct (save_builds src cfg filename g d) as (b & g' & S & Hb).
  unfold write_json in S. rewrite W in S. cbn [fst snd] in S.
  assert (M : match lookup (filepath cfg filename) (files d) with
              | Some f => readable f
              | None => true
              end = true).
  { destruct (lookup (filepath cfg filename) (files d)) as [f|] eqn:L; [|reflexivity].
    now apply R. }
  rewrite M in S.
  exists b. eexists. split; [exact S|]. cbn [snd files].
  rewrite lookup_head. split; [reflexivity|]. split; [exact Hb|].
  match goal with
  | |- context [load_test_data_from_file _ _ _ (?g1, ?d1)] =>
      destruct (load_cases src cfg filename g1 d1) as (b' & w' & Hl & Hc)
  end.
  cbn [files] in Hc. rewrite lookup_head in Hc. cbn [readable data] in Hc.
  destruct Hc as [-> ->]. eauto.
Qed.

Lemma save_then_load_round_trip_witness :
  exists persisted w1,
    save_test_data_to_file Sample.sources Config.defaults (str "test_books.json")
      (O, Sample.empty_disk) = (Ok tt, w1)
    /\ lookup (filepath Config.defaults (str "test_books.json")) (files (snd w1))
       = Some (mkfile (Document persisted) true)
    /\ counts persisted = (Some 5%nat, Some 3%nat, Some 6%nat)
    /\ exists loaded w2,
         load_test_data_from_file Sample.sources Config.defaults
           (str "test_books.json") w1 = (Ok loaded, w2)
         /\ counts loaded = counts persisted.
Proof.
  apply (save_then_load_round_trip nat Sample.sources Config.defaults
           (str "test_books.json") O Sample.empty_disk).
  - reflexivity.
  - intros f H. discriminate H.
Defined.




End Fixtures.

(** ** The sources' own fixtures, evaluated *)

Module Examples.
Import Validators TestDataGenerator.

(** The date of the extreme-values edge case parses, its [Z] read as UTC. *)
Example fromisoformat_utc_suffix :
  fromisoformat (replace 90 (str "+00:00") (str "1900-01-01T00:00:00.000Z"))
  = Some (mkdatetime (mkdate 1900 1 1) 0 0 0 0 (Some 0)).
Proof. reflexivity. Qed.

Example fromisoformat_rejects_placeholder :
  fromisoformat (str "invalid-date-format") = None.
Proof. reflexivity. Qed.

Example fromisoformat_rejects_february_30 :
  fromisoformat (str "2023-02-30") = None.
Proof. reflexivity. Qed.

(** The payload of the create scenario passes both checks. *)
Example good_book_passes :
  validate_book_response Sample.good_book = Ok true
  /\ validate_book_data Sample.digits_only Sample.good_book = Ok [].
Proof. split; reflexivity. Qed.

(** An id decoded as [1.0] is an integer for the schema; [True] is not. *)
Example float_id_is_an_integer :
  validate_book_response
    (set_item (str "id") (PFloat (S754_finite false 1 0)) Sample.good_book) = Ok true
  /\ validate_book_response
       (set_item (str "id") (PBool true) Sample.good_book) = Ok false.
Proof. split; reflexivity. Qed.

(** An additional key is refused by the schema and ignored by the model. *)
Example extra_key :
  validate_book_response
    (set_item (str "author") (PStr (str "A")) Sample.good_book) = Ok false
  /\ validate_book_data Sample.digits_only
       (set_item (str "author") (PStr (str "A")) Sample.good_book) = Ok [].
Proof. split; reflexivity. Qed.

(** The three corruptions of the persisted bundle fail the model, each
    with one message. *)
Example invalid_books_fail :
  Forall (fun mode =>
            exists m,
              validate_book_data Sample.digits_only
                (fst (generate_invalid_book_data Sample.sources (Some (str mode)) O))
              = Ok [m])
         ["missing_required"; "wrong_types"; "empty_values"]%string.
Proof. repeat constructor; eexists; reflexivity. Qed.

(** The default corruption blanks the title, negates the page count and
    breaks the date: three lines in one message. *)
Example default_invalid_book_message :
  validate_book_data Sample.digits_only
    (fst (generate_invalid_book_data Sample.sources None O))
  = Ok [str_exn (ValidationError
                   [ (str "title", str "Value error, Title cannot be empty");
                     (str "pageCount", str "Value error, Page count must be positive");
                     (str "publishDate",
                      str "Value error, Invalid date format. Expected ISO format") ])].
Proof. reflexivity. Qed.

(** The six edge cases pass the model, the long and the hostile texts
    included. *)
Example edge_cases_pass :
  forallb (fun case =>
             match case with
             | PDict d =>
                 match dict_get (str "data") d with
                 | Some payload =>
                     match validate_book_data Sample.digits_only payload with
                     | Ok [] => true
                     | _ => false
                     end
                 | None => false
                 end
             | _ => false
             end)
          (fst (generate_edge_case_data Sample.sources O)) = true.
Proof. vm_compute. reflexivity. Qed.

(** The settings used when the environment sets nothing are accepted. *)
Example default_config_is_valid :
  Config.validate_config Config.defaults = ([], Ok true).
Proof. reflexivity. Qed.

Example config_without_scheme :
  Config.validate_config
    (Config.mkConfig (str "fakerestapi.azurewebsites.net") 30 (str "v1") 60 3 1
                     (str "tests/test_data") (str "test_books.json") (str "INFO"))
  = ([str "Invalid API_BASE_URL: fakerestapi.azurewebsites.net"], Ok false).
Proof. reflexivity. Qed.

Example book_by_id_endpoint :
  Config.get_book_by_id_endpoint Config.defaults 99999
  = str "https://fakerestapi.azurewebsites.net/api/v1/Books/99999".
Proof. reflexivity. Qed.

(** A timeout is logged at error level and raised. *)
Example make_request_timeout :
  ApiClient._make_request (fun _ _ => Raise (RequestsTimeout (str "timed out")))
    (str "GET") (str "u")
  = ([ (ApiClient.DEBUG, str "Making GET request to u");
       (ApiClient.ERROR, str "Request timeout for GET u") ],
     Raise (RequestsTimeout (str "timed out"))).
Proof. reflexivity. Qed.

(** A different day is a mismatch, a time of day is not. *)
Example date_mismatch :
  assert_book_content
    [(str "publishDate", PStr (str "2023-01-02T00:00:00"))]
    [(str "publishDate", PStr (str "2023-01-01"))]
  = Raise (AssertionError (str "Field 'publishDate' mismatch")).
Proof. reflexivity. Qed.

End Examples.
